(** * Movie Search & Reviews: the view controller of [frontend/index.jsx]

    A shallow embedding of the React component [App]: its eight state
    hooks, its effect hook and its handlers, with the network and the
    confirmation dialog as an environment that answers the requests the
    handlers issue.  Handlers are written in a small monad of programs
    (state updates, [fetch], [confirm], exceptions with [try]/[catch]), so
    that each definition reads like the function it embeds.  One user
    action runs to its end before the next one starts: requests in flight
    at the same time are outside this model. *)

From Stdlib Require Import ZArith NArith List String Ascii Bool Lia DecimalString.
From Stdlib Require DecimalPos DecimalZ.
From ExtLib Require Import Structures.Monad.
Import ListNotations.
Import MonadNotation.

Local Open Scope string_scope.
Local Open Scope Z_scope.
Local Open Scope monad_scope.

(** ** JavaScript built-ins used by the component

    Strings are byte strings holding UTF-8 text, numbers are the integers
    ([Z]) among the JavaScript numbers. *)
Module JS.

Definition bytes (s : string) : list N := map N_of_ascii (list_ascii_of_string s).
Definition of_bytes (l : list N) : string := string_of_list_ascii (map ascii_of_N l).

(** The code points of ECMAScript's WhiteSpace and LineTerminator
    productions, in UTF-8: TAB, LF, VT, FF, CR, SP, U+00A0, U+1680,
    U+2000..U+200A, U+2028, U+2029, U+202F, U+205F, U+3000, U+FEFF. *)
Definition WhiteSpace : list (list N) :=
  [ [9]; [10]; [11]; [12]; [13]; [32]; [194; 160]; [225; 154; 128];
    [226; 128; 128]; [226; 128; 129]; [226; 128; 130]; [226; 128; 131];
    [226; 128; 132]; [226; 128; 133]; [226; 128; 134]; [226; 128; 135];
    [226; 128; 136]; [226; 128; 137]; [226; 128; 138];
    [226; 128; 168]; [226; 128; 169]; [226; 128; 175]; [226; 129; 159];
    [227; 128; 128]; [239; 187; 191] ]%N.

(** [strip_prefix p l] is [Some r] when [l = p ++ r]. *)
Fixpoint strip_prefix (p l : list N) : option (list N) :=
  match p, l with
  | [], _ => Some l
  | a :: p', b :: l' => if N.eqb a b then strip_prefix p' l' else None
  | _ :: _, [] => None
  end.

(** Removes one leading white-space character, if there is one. *)
Fixpoint strip_any (ws : list (list N)) (l : list N) : option (list N) :=
  match ws with
  | [] => None
  | w :: ws' =>
      match strip_prefix w l with
      | Some r => Some r
      | None => strip_any ws' l
      end
  end.

Fixpoint strip_all (fuel : nat) (ws : list (list N)) (l : list N) : list N :=
  match fuel with
  | O => l
  | S fuel' =>
      match strip_any ws l with
      | Some r => strip_all fuel' ws r
      | None => l
      end
  end.

Definition trimStart_bytes (l : list N) : list N :=
  strip_all (List.length l) WhiteSpace l.

Definition trimEnd_bytes (l : list N) : list N :=
  rev (strip_all (List.length l) (map (@rev N) WhiteSpace) (rev l)).

(** [String.prototype.trim] *)
Definition trim (s : string) : string :=
  of_bytes (trimEnd_bytes (trimStart_bytes (bytes s))).

(** Truthiness of a string: the empty string is the only falsy one. *)
Definition truthy (s : string) : bool := negb (String.eqb s "").

(** [a || b] on strings where [a] may be [undefined]. *)
Definition or_else (a : option string) (b : string) : string :=
  match a with
  | Some s => if truthy s then s else b
  | None => b
  end.

(** Truthiness of a value that is [null] or a string. *)
Definition truthy_opt (v : option string) : bool :=
  match v with
  | Some s => truthy s
  | None => false
  end.

(** [ToString] of a value that is [null] or a string. *)
Definition toString_opt (v : option string) : string :=
  match v with
  | Some s => s
  | None => "null"
  end.

(** [ToString] of an integer number, as a template literal prints it:
    all the digits.  That is the built-in on the safe integers (see
    [isSafeInteger] below); larger numbers are rounded when parsed and
    printed in exponent form from 1e21 on. *)
Definition toString_num (n : Z) : string := NilZero.string_of_int (Z.to_int n).

Definition in_range (lo hi c : N) : bool := N.leb lo c && N.leb c hi.

(** The characters [encodeURIComponent] leaves alone:
    A-Z a-z 0-9 - _ . ! ~ * ' ( ) *)
Definition unreserved (c : N) : bool :=
  in_range 65 90 c || in_range 97 122 c || in_range 48 57 c
  || existsb (N.eqb c) (bytes "-_.!~*'()").

Definition hexDigit (n : N) : string :=
  String.substring (N.to_nat n) 1 "0123456789ABCDEF".

Definition percent (c : N) : string :=
  "%" ++ hexDigit (c / 16) ++ hexDigit (c mod 16).

(** [encodeURIComponent]: every byte of the UTF-8 text that is not
    unreserved is written as a percent escape.  That is the built-in on
    the well-formed strings (see [isWellFormed] below); on a string with
    a lone surrogate, which has no UTF-8 form, the built-in throws. *)
Definition encodeURIComponent (s : string) : string :=
  String.concat "" (map (fun c => if unreserved c then of_bytes [c] else percent c)
                 (bytes s)).

(** [Math.ceil(n / d)] for an integer [n] and a positive integer [d]. *)
Definition ceil_div (n d : Z) : Z := - ((- n) / d).

(** A continuation byte of UTF-8. *)
Definition continuation (b : N) : bool := in_range 128 191 b.

(** Whether bytes are UTF-8 text: the well-formed byte sequences of the
    Unicode standard, which leave out the surrogates (ED A0..BF ..). *)
Fixpoint utf8 (l : list N) : bool :=
  match l with
  | [] => true
  | a :: r =>
      if N.leb a 127 then utf8 r
      else
        match r with
        | [] => false
        | b :: r2 =>
            if in_range 194 223 a then continuation b && utf8 r2
            else
              match r2 with
              | [] => false
              | c :: r3 =>
                  if in_range 224 239 a
                  then (if N.eqb a 224 then in_range 160 191 b
                        else if N.eqb a 237 then in_range 128 159 b
                        else continuation b)
                       && continuation c && utf8 r3
                  else
                    match r3 with
                    | [] => false
                    | d :: r4 =>
                        in_range 240 244 a
                        && (if N.eqb a 240 then in_range 144 191 b
                            else if N.eqb a 244 then in_range 128 143 b
                            else continuation b)
                        && continuation c && continuation d && utf8 r4
                    end
              end
        end
  end.

(** [String.prototype.isWellFormed]: the string has no lone surrogate.
    These are the strings that have a UTF-8 form, and the ones on which
    [encodeURIComponent] above is the built-in: on a string with a lone
    surrogate the built-in throws a URIError, and such a string is no
    byte string of this model. *)
Definition isWellFormed (s : string) : bool := utf8 (bytes s).

(** The same for a value that is [null] or a string ([null] prints as
    the text null). *)
Definition isWellFormed_opt (v : option string) : bool :=
  match v with
  | Some s => isWellFormed s
  | None => true
  end.

(** [Number.isSafeInteger]: the integers every one of which is a number
    of its own and is printed with all its digits, so that
    [toString_num] above is the built-in on them. *)
Definition isSafeInteger (n : Z) : bool := Z.abs n <=? 9007199254740991.

End JS.

(** ** Data *)

(** A search hit, as the cards read it. *)
Module Movie.
Record t := { imdbID : string; Title : string; Year : string; Poster : string }.
End Movie.

(** A stored review, as the review list reads it. *)
Module Review.
Record t := { id : Z; reviewText : string }.
End Review.

(** The JSON bodies the backend answers with: the shapes of the four
    endpoints, three objects and one array.  [res.json()] yields one of
    them.  Other JSON (null, strings, numbers, objects with other fields,
    arrays of other things) is not in this model, and what is proved of
    a body is proved of these shapes. *)
Inductive json :=
  | SearchPage (results : list Movie.t) (totalResults : Z)
      (* { results: [...], totalResults: n } *)
  | ErrorObject (error : string)
      (* { error: "..." } *)
  | ReviewArray (list : list Review.t)
      (* [ { id, reviewText }, ... ] *)
  | EmptyObject.
      (* {} *)

(** Property reads on a parsed body; [None] is [undefined]. *)
Definition data_results (data : json) : option (list Movie.t) :=
  match data with SearchPage r _ => Some r | _ => None end.
Definition data_totalResults (data : json) : option Z :=
  match data with SearchPage _ n => Some n | _ => None end.
Definition data_error (data : json) : option string :=
  match data with ErrorObject e => Some e | _ => None end.

(** The argument of [JSON.stringify] in [submitReview]. *)
Record review_post := { movieTitle : option string; post_reviewText : string }.

(** What [fetch] is called with. *)
Record request := {
  method : string;
  url : string;
  headers : list (string * string);
  body : option review_post
}.

Definition GET (u : string) : request :=
  {| method := "GET"; url := u; headers := []; body := None |}.

(** [res.json()]: the parsed body, or a rejection with the parser's
    message when the body is not JSON. *)
Inductive parsed :=
  | Json (data : json)
  | NotJson (message : string).

Record response := { status : Z; json_body : parsed }.

(** [res.ok] *)
Definition ok (res : response) : bool := (200 <=? status res) && (status res <=? 299).

(** The outcome of awaiting [fetch]: a response of any status, or a
    rejection (no connection) with the platform's message. *)
Inductive fetch_result :=
  | Resolved (res : response)
  | Rejected (message : string).

(** The environment of one run: the backend behind [fetch] and the user
    behind [confirm]. *)
Record world := {
  network : request -> fetch_result;
  confirm : string -> bool
}.

(** ** The state hooks *)
Record state := {
  keyword : string;
  page : Z;
  movies : option (list Movie.t);
  totalResults : option Z;
  error : string;
  selected : option string;
  reviews : json;
  reviewText : string
}.

(** The values given to [useState]. *)
Definition initial : state :=
  {| keyword := ""; page := 1; movies := Some []; totalResults := Some 0;
     error := ""; selected := None; reviews := ReviewArray []; reviewText := "" |}.

Definition set_keyword (v : string) (s : state) : state :=
  {| keyword := v; page := page s; movies := movies s;
     totalResults := totalResults s; error := error s; selected := selected s;
     reviews := reviews s; reviewText := reviewText s |}.
Definition set_page (v : Z) (s : state) : state :=
  {| keyword := keyword s; page := v; movies := movies s;
     totalResults := totalResults s; error := error s; selected := selected s;
     reviews := reviews s; reviewText := reviewText s |}.
Definition set_movies (v : option (list Movie.t)) (s : state) : state :=
  {| keyword := keyword s; page := page s; movies := v;
     totalResults := totalResults s; error := error s; selected := selected s;
     reviews := reviews s; reviewText := reviewText s |}.
Definition set_totalResults (v : option Z) (s : state) : state :=
  {| keyword := keyword s; page := page s; movies := movies s;
     totalResults := v; error := error s; selected := selected s;
     reviews := reviews s; reviewText := reviewText s |}.
Definition set_error (v : string) (s : state) : state :=
  {| keyword := keyword s; page := page s; movies := movies s;
     totalResults := totalResults s; error := v; selected := selected s;
     reviews := reviews s; reviewText := reviewText s |}.
Definition set_selected (v : option string) (s : state) : state :=
  {| keyword := keyword s; page := page s; movies := movies s;
     totalResults := totalResults s; error := error s; selected := v;
     reviews := reviews s; reviewText := reviewText s |}.
Definition set_reviews (v : json) (s : state) : state :=
  {| keyword := keyword s; page := page s; movies := movies s;
     totalResults := totalResults s; error := error s; selected := selected s;
     reviews := v; reviewText := reviewText s |}.
Definition set_reviewText (v : string) (s : state) : state :=
  {| keyword := keyword s; page := page s; movies := movies s;
     totalResults := totalResults s; error := error s; selected := selected s;
     reviews := reviews s; reviewText := v |}.

(** ** Programs

    What a handler does: state updates, requests, the confirmation
    dialog, and exceptions.  A handler is built from the state its render
    closed over and is then run against an environment. *)
Inductive prog (A : Type) : Type :=
  | Ret (a : A)
  | Throw (message : string)
  | Update (f : state -> state) (k : prog A)
  | Fetch (req : request) (k : fetch_result -> prog A)
  | Confirm (message : string) (k : bool -> prog A).

Arguments Ret {A} a.
Arguments Throw {A} message.
Arguments Update {A} f k.
Arguments Fetch {A} req k.
Arguments Confirm {A} message k.

Fixpoint pbind {A B : Type} (p : prog A) (f : A -> prog B) : prog B :=
  match p with
  | Ret a => f a
  | Throw m => Throw m
  | Update g k => Update g (pbind k f)
  | Fetch r k => Fetch r (fun x => pbind (k x) f)
  | Confirm m k => Confirm m (fun b => pbind (k b) f)
  end.

#[export] Instance Monad_prog : Monad prog :=
  {| ret := @Ret; bind := @pbind |}.

(** [try { p } catch (err) { h err.message }] *)
Fixpoint try_catch {A : Type} (p : prog A) (h : string -> prog A) : prog A :=
  match p with
  | Ret a => Ret a
  | Throw m => h m
  | Update g k => Update g (try_catch k h)
  | Fetch r k => Fetch r (fun x => try_catch (k x) h)
  | Confirm m k => Confirm m (fun b => try_catch (k b) h)
  end.

Definition throw_Error {A : Type} (message : string) : prog A := Throw message.

(** [await fetch(req)] *)
Definition fetch (req : request) : prog response :=
  Fetch req (fun r =>
    match r with
    | Resolved res => Ret res
    | Rejected m => Throw m
    end).

(** [await res.json()] *)
Definition res_json (res : response) : prog json :=
  match json_body res with
  | Json data => Ret data
  | NotJson m => Throw m
  end.

Definition js_confirm (message : string) : prog bool :=
  Confirm message (fun b => Ret b).

Definition setKeyword (v : string) : prog unit := Update (set_keyword v) (Ret tt).
Definition setPage (v : Z) : prog unit := Update (set_page v) (Ret tt).
Definition setMovies (v : option (list Movie.t)) : prog unit := Update (set_movies v) (Ret tt).
Definition setTotal (v : option Z) : prog unit := Update (set_totalResults v) (Ret tt).
Definition setError (v : string) : prog unit := Update (set_error v) (Ret tt).
Definition setSelected (v : option string) : prog unit := Update (set_selected v) (Ret tt).
Definition setReviews (v : json) : prog unit := Update (set_reviews v) (Ret tt).
Definition setReviewText (v : string) : prog unit := Update (set_reviewText v) (Ret tt).

Inductive outcome (A : Type) : Type :=
  | Returned (a : A)
  | Uncaught (message : string).

Arguments Returned {A} a.
Arguments Uncaught {A} message.

(** Runs a program: the way it ends, the final state, and the requests
    issued, in order. *)
Fixpoint exec {A : Type} (p : prog A) (w : world) (s : state)
  : outcome A * state * list request :=
  match p with
  | Ret a => (Returned a, s, [])
  | Throw m => (Uncaught m, s, [])
  | Update f k => exec k w (f s)
  | Fetch r k =>
      let '(o, s', t) := exec (k (network w r)) w s in (o, s', r :: t)
  | Confirm m k => exec (k (confirm w m)) w s
  end.

(** The state in which a program reaches its first [await] (or its end). *)
Fixpoint at_first_await {A : Type} (p : prog A) (s : state) : state :=
  match p with
  | Update f k => at_first_await k (f s)
  | _ => s
  end.

(** ** The component [App] *)

(** A pagination button: its [key] and label, whether it is disabled,
    and what a click on it runs. *)
Record button := {
  key : Z;
  disabled : bool;
  onClick : prog unit
}.

Definition search_url (q : string) (p : Z) : string :=
  "/api/search?q=" ++ JS.encodeURIComponent q ++ "&page=" ++ JS.toString_num p.

Definition reviews_url (title : option string) : string :=
  "/api/reviews/" ++ JS.encodeURIComponent (JS.toString_opt title).

Definition review_url (id : Z) : string :=
  "/api/reviews/" ++ JS.toString_num id.

(** [fetchMovies(q, p)] *)
Definition fetchMovies (q : string) (p : Z) : prog unit :=
  setError "" ;;
  setMovies (Some []) ;;
  setTotal (Some 0) ;;
  try_catch
    (res <- fetch (GET (search_url q p)) ;;
     data <- res_json res ;;
     (if negb (ok res)
      then throw_Error (JS.or_else (data_error data) "Search failed")
      else ret tt) ;;
     setMovies (data_results data) ;;
     setTotal (data_totalResults data) ;;
     setPage p)
    (fun message => setError message).

(** [fetchReviews(title)]; the title is the value of [selected], a string
    or [null]. *)
Definition fetchReviews (title : option string) : prog unit :=
  try_catch
    (res <- fetch (GET (reviews_url title)) ;;
     list <- res_json res ;;
     setReviews list)
    (fun _ => setError "Failed to load reviews.").

(** [selectMovie(title)] *)
Definition selectMovie (title : string) : prog unit :=
  setSelected (Some title) ;;
  setReviewText "".

Section Render.

(** The state the current render closed over. *)
Variable now : state.

(** [handleSearch(e)]; [e.preventDefault()] acts on the browser's event
    only. *)
Definition handleSearch : prog unit :=
  if negb (JS.truthy (JS.trim (keyword now))) then ret tt
  else
    setError "" ;;
    setSelected None ;;
    fetchMovies (keyword now) 1.

(** [renderPagination()]: [None] is [null].  With [totalResults]
    undefined, [totalPages] is NaN: neither [totalPages <= 1] nor
    [p <= totalPages] holds, and the container is empty. *)
Definition renderPagination : option (list button) :=
  match totalResults now with
  | Some n =>
      let totalPages := JS.ceil_div n 10 in
      if totalPages <=? 1 then None
      else
        Some (map (fun i =>
                     let p := Z.of_nat i in
                     {| key := p;
                        disabled := Z.eqb p (page now);
                        onClick := fetchMovies (keyword now) p |})
                  (seq 1 (Z.to_nat totalPages)))
  | None => Some []
  end.

(** [submitReview()]; the refresh at the end is not awaited, its own
    [try] holds whatever it raises. *)
Definition submitReview : prog unit :=
  if negb (JS.truthy (JS.trim (reviewText now))) then ret tt
  else
    try_catch
      (res <- fetch {| method := "POST";
                       url := "/api/reviews";
                       headers := [("Content-Type", "application/json")];
                       body := Some {| movieTitle := selected now;
                                       post_reviewText := reviewText now |} |} ;;
       (if negb (ok res) then throw_Error "Submit failed" else ret tt) ;;
       setReviewText "" ;;
       fetchReviews (selected now))
      (fun message => setError message).

(** [deleteReview(id)] *)
Definition deleteReview (id : Z) : prog unit :=
  answer <- js_confirm "Delete this review?" ;;
  if negb answer then ret tt
  else
    try_catch
      (res <- fetch {| method := "DELETE"; url := review_url id;
                       headers := []; body := None |} ;;
       (if negb (Z.eqb (status res) 204) then throw_Error "Delete failed" else ret tt) ;;
       fetchReviews (selected now))
      (fun message => setError message).

(** The body of the effect hook: [if (selected) fetchReviews(selected)]. *)
Definition effect : prog unit :=
  if JS.truthy_opt (selected now) then fetchReviews (selected now) else ret tt.

End Render.

(** What the user can do to the page. *)
Inductive event :=
  | KeywordInput (value : string)   (* typing in the search box *)
  | SearchSubmit                    (* submitting the search form *)
  | PageClick (p : Z)               (* a pagination button *)
  | MovieClick (title : string)     (* "View & Add Reviews" on a card *)
  | BackClick                       (* "Back to Search" *)
  | ReviewInput (value : string)    (* typing in the review box *)
  | SubmitClick                     (* "Submit Review" *)
  | DeleteClick (id : Z).           (* "Delete" on a review *)

(** The handler the render attached to each control. *)
Definition handler (e : event) (now : state) : prog unit :=
  match e with
  | KeywordInput v => setKeyword v
  | SearchSubmit => handleSearch now
  | PageClick p => fetchMovies (keyword now) p
  | MovieClick title => selectMovie title
  | BackClick => setSelected None
  | ReviewInput v => setReviewText v
  | SubmitClick => submitReview now
  | DeleteClick id => deleteReview now id
  end.

Definition same_selected (a b : option string) : bool :=
  match a, b with
  | Some x, Some y => String.eqb x y
  | None, None => true
  | _, _ => false
  end.

(** One user action: the handler runs from the rendered state, and when
    it leaves [selected] different, the effect hook runs after it. *)
Definition dispatch (e : event) (w : world) (s : state) : state * list request :=
  let '(_, s1, t1) := exec (handler e s) w s in
  if same_selected (selected s) (selected s1) then (s1, t1)
  else
    let '(_, s2, t2) := exec (effect s1) w s1 in (s2, t1 ++ t2)%list.

(** A session: each action meets the environment of its moment. *)
Fixpoint session (l : list (event * world)) (s : state) : state * list request :=
  match l with
  | [] => (s, [])
  | (e, w) :: l' =>
      let '(s1, t1) := dispatch e w s in
      let '(s2, t2) := session l' s1 in (s2, t1 ++ t2)%list
  end.

(** The operations of the specification, as the page offers them. *)
Definition ChangePage (p : Z) : world -> state -> state * list request :=
  dispatch (PageClick p).
Definition Back : world -> state -> state * list request :=
  dispatch BackClick.
Definition SubmitReview : world -> state -> state * list request :=
  dispatch SubmitClick.
Definition DeleteReview (id : Z) : world -> state -> state * list request :=
  dispatch (DeleteClick id).
Definition SearchForm : world -> state -> state * list request :=
  dispatch SearchSubmit.
Definition FetchReviews (title : string) (w : world) (s : state) : state * list request :=
  let '(_, s', t) := exec (fetchReviews (Some title)) w s in (s', t).

(** The requests of the review handlers, from the state they close over. *)
Definition reviews_request (s : state) : request := GET (reviews_url (selected s)).

Definition post_request (s : state) : request :=
  {| method := "POST"; url := "/api/reviews";
     headers := [("Content-Type", "application/json")];
     body := Some {| movieTitle := selected s; post_reviewText := reviewText s |} |}.

Definition delete_request (id : Z) : request :=
  {| method := "DELETE"; url := review_url id; headers := []; body := None |}.

(** The state [fetchReviews] leaves, by the answer to its request. *)
Definition reviews_loaded (r : fetch_result) (s : state) : state :=
  match r with
  | Resolved res =>
      match json_body res with
      | Json list => set_reviews list s
      | NotJson _ => set_error "Failed to load reviews." s
      end
  | Rejected _ => set_error "Failed to load reviews." s
  end.

(** A request that failed: no connection, or a status outside 200..299. *)
Definition failed (r : fetch_result) : Prop :=
  match r with
  | Resolved res => ok res = false
  | Rejected _ => True
  end.

(** The specification's [Search(keyword, page)], written from its words
    to be compared with the handlers: nothing happens unless the keyword
    is non-empty after trim; otherwise the error and the previous result
    are cleared and one GET is issued; a 2xx answer with a JSON body
    gives the items, the total and the current page; any other outcome
    gives the error message, the answer's [error] field when it has one
    and else the text of the failure, and leaves the result empty. *)
Definition Search_outcome (r : fetch_result)
  : (option (list Movie.t) * option Z) + string :=
  match r with
  | Resolved res =>
      match json_body res with
      | Json data =>
          if ok res then inl (data_results data, data_totalResults data)
          else inr (JS.or_else (data_error data) "Search failed")
      | NotJson m => inr m
      end
  | Rejected m => inr m
  end.

Definition Search_spec (kw : string) (p : Z) (w : world) (s : state)
  : state * list request :=
  if String.eqb (JS.trim kw) "" then (s, [])
  else
    let req := GET (search_url kw p) in
    match Search_outcome (network w req) with
    | inl (items, total) =>
        ({| keyword := keyword s; page := p; movies := items;
            totalResults := total; error := ""; selected := selected s;
            reviews := reviews s; reviewText := reviewText s |}, [req])
    | inr message =>
        ({| keyword := keyword s; page := page s; movies := Some [];
            totalResults := Some 0; error := message; selected := selected s;
            reviews := reviews s; reviewText := reviewText s |}, [req])
    end.

(** The part of the state the search view shows. *)
Definition search_view (s : state) : string * Z * option (list Movie.t) * option Z :=
  (keyword s, page s, movies s, totalResults s).

(** The actions the review view offers besides going back. *)
Definition review_action (e : event) : bool :=
  match e with
  | ReviewInput _ | SubmitClick | DeleteClick _ => true
  | _ => false
  end.

(** ** Rendering

    What [App] returns: the elements on the page, with the handlers the
    controls carry.  A render that throws takes the page down. *)

(** A result card of the search view. *)
Record card := {
  card_key : string;            (* key={m.imdbID} *)
  img_src : string;
  img_alt : string;
  card_heading : string;        (* {m.Title} ({m.Year}) *)
  card_onClick : prog unit      (* View & Add Reviews *)
}.

(** An entry of the review list. *)
Record review_entry := {
  entry_key : Z;                (* key={r.id} *)
  entry_text : string;
  entry_caption : string;       (* Review #{r.id} *)
  entry_onClick : prog unit     (* Delete *)
}.

Inductive review_listing :=
  | NoReviewsYet                (* No reviews yet. Be the first! *)
  | Entries (l : list review_entry).

Record search_form := {
  input_value : string;
  form_onSubmit : prog unit
}.

Record reviews_container := {
  back_onClick : prog unit;
  container_heading : string;   (* Reviews for: {selected} *)
  textarea_value : string;
  submit_onClick : prog unit;
  listing : review_listing
}.

Record view := {
  v_form : option search_form;
  v_error : option string;
  v_cards : option (list card);
  v_pagination : option (list button);
  v_reviews : option reviews_container
}.

(** The two ways the render throws: [movies.map] with [movies]
    undefined, and [reviews.map] with [reviews] an object that is no
    array (its [length] is undefined, so the empty-list test fails too). *)
Inductive TypeError :=
  | movies_map_of_undefined
  | reviews_map_not_a_function.

Definition poster_src (m : Movie.t) : string :=
  if negb (String.eqb (Movie.Poster m) "N/A") then Movie.Poster m
  else "https://via.placeholder.com/100x150?text=No+Image".

Definition render_card (m : Movie.t) : card :=
  {| card_key := Movie.imdbID m;
     img_src := poster_src m;
     img_alt := "Poster of " ++ Movie.Title m;
     card_heading := Movie.Title m ++ " (" ++ Movie.Year m ++ ")";
     card_onClick := selectMovie (Movie.Title m) |}.

Definition render_review (now : state) (r : Review.t) : review_entry :=
  {| entry_key := Review.id r;
     entry_text := Review.reviewText r;
     entry_caption := "Review #" ++ JS.toString_num (Review.id r);
     entry_onClick := deleteReview now (Review.id r) |}.

(** [movies.map(m => ...)] *)
Definition render_cards (now : state) : TypeError + list card :=
  match movies now with
  | Some ms => inr (map render_card ms)
  | None => inl movies_map_of_undefined
  end.

(** [reviews.length === 0 ? ... : reviews.map(r => ...)] *)
Definition render_listing (now : state) : TypeError + review_listing :=
  match reviews now with
  | ReviewArray l =>
      if (Z.of_nat (List.length l) =? 0) then inr NoReviewsYet
      else inr (Entries (map (render_review now) l))
  | _ => inl reviews_map_not_a_function
  end.

(** The [return] of [App], children in their order. *)
Definition render (now : state) : TypeError + view :=
  let reviewing := JS.truthy_opt (selected now) in
  let form :=
    if negb reviewing
    then Some {| input_value := keyword now; form_onSubmit := handleSearch now |}
    else None in
  let message := if JS.truthy (error now) then Some (error now) else None in
  match (if negb reviewing
         then match render_cards now with
              | inr cs => inr (Some cs)
              | inl e => inl e
              end
         else inr None) with
  | inl e => inl e
  | inr cards =>
      let pagination := if negb reviewing then renderPagination now else None in
      match (if reviewing
             then match render_listing now with
                  | inr ls =>
                      inr (Some {| back_onClick := setSelected None;
                                   container_heading :=
                                     "Reviews for: " ++ JS.toString_opt (selected now);
                                   textarea_value := reviewText now;
                                   submit_onClick := submitReview now;
                                   listing := ls |})
                  | inl e => inl e
                  end
             else inr None) with
      | inl e => inl e
      | inr container =>
          inr {| v_form := form; v_error := message; v_cards := cards;
                 v_pagination := pagination; v_reviews := container |}
      end
  end.

(** Whether the page, as rendered from [now], offers the control behind
    an action. *)
Definition offered (e : event) (now : state) : bool :=
  match render now with
  | inl _ => false
  | inr v =>
      match e with
      | KeywordInput _ | SearchSubmit =>
          match v_form v with Some _ => true | None => false end
      | PageClick p =>
          match v_pagination v with
          | Some bs => existsb (fun b => Z.eqb (key b) p && negb (disabled b)) bs
          | None => false
          end
      | MovieClick title =>
          match v_cards v, movies now with
          | Some _, Some ms => existsb (fun m => String.eqb (Movie.Title m) title) ms
          | _, _ => false
          end
      | BackClick | ReviewInput _ | SubmitClick =>
          match v_reviews v with Some _ => true | None => false end
      | DeleteClick id =>
          match v_reviews v with
          | Some c =>
              match listing c with
              | Entries l => existsb (fun r => Z.eqb (entry_key r) id) l
              | NoReviewsYet => false
              end
          | None => false
          end
      end
  end.

(** A session in which every action uses a control the page offers at
    that moment. *)
Fixpoint offered_all (l : list (event * world)) (s : state) : bool :=
  match l with
  | [] => true
  | (e, w) :: l' => offered e s && offered_all l' (fst (dispatch e w s))
  end.

(** A backend that keeps to the shapes of its endpoints: a 2xx answer to
    a search carries results and a total, and a JSON answer to a review
    listing is an array. *)
Definition keeps_shapes (w : world) : Prop :=
  (forall q p res data,
     network w (GET (search_url q p)) = Resolved res ->
     ok res = true -> json_body res = Json data ->
     exists rs n, data = SearchPage rs n)
  /\ (forall title res data,
       network w (GET (reviews_url title)) = Resolved res ->
       json_body res = Json data ->
       exists l, data = ReviewArray l).

(** The states every view of which can be rendered. *)
Definition renderable (s : state) : Prop :=
  movies s <> None /\ exists l, reviews s = ReviewArray l.

(** One visit of a title: the card is clicked, later the back button. *)
Definition visit (v : string * world * world) : list (event * world) :=
  let '(title, w_in, w_out) := v in [ (MovieClick title, w_in); (BackClick, w_out) ].

(** What [encodeURIComponent] writes for one byte. *)
Definition encode_byte (c : N) : string :=
  if JS.unreserved c then JS.of_bytes [c] else JS.percent c.

(** A text that cannot be mistaken for more encoded output: it is empty,
    or starts with a character that [encodeURIComponent] never writes. *)
Definition ends_encoding (t : string) : Prop :=
  match t with
  | EmptyString => True
  | String a _ => a <> "%"%char /\ JS.unreserved (N_of_ascii a) = false
  end.

(** The actions that search: the form and the page buttons. *)
Definition is_search (e : event) : bool :=
  match e with
  | SearchSubmit | PageClick _ => true
  | _ => false
  end.

(** An answer that gives [fetchReviews] no list: no connection, or a
    body that is not JSON. *)
Definition no_list (r : fetch_result) : Prop :=
  match r with
  | Resolved res =>
      match json_body res with
      | Json _ => False
      | NotJson _ => True
      end
  | Rejected _ => True
  end.

(** The bodies that are JSON objects; none of them has a [length] or a
    [map]. *)
Definition is_object (data : json) : bool :=
  match data with
  | ReviewArray _ => false
  | _ => true
  end.

(** ** Properties *)

Arguments search_url : simpl never.
Arguments reviews_url : simpl never.
Arguments review_url : simpl never.
Arguments GET : simpl never.

(** *** The built-ins on examples, and the fuel of [trim] *)

Example trim_both_ends : JS.trim "  the  dark knight  " = "the  dark knight".
Proof. reflexivity. Qed.

Example trim_no_break_space :
  JS.trim (JS.of_bytes [194; 160; 9; 66; 226; 128; 168; 10]%N) = "B".
Proof. reflexivity. Qed.

Example encode_keyword : JS.encodeURIComponent "bat man & robin?" = "bat%20man%20%26%20robin%3F".
Proof. reflexivity. Qed.

Example search_url_page_2 : search_url "star wars" 2 = "/api/search?q=star%20wars&page=2".
Proof. reflexivity. Qed.

Lemma strip_prefix_length (p l r : list N) :
  JS.strip_prefix p l = Some r -> List.length l = (List.length p + List.length r)%nat.
Proof.
  revert l. induction p as [|a p IH]; intros l H; cbn in H.
  - injection H as <-. reflexivity.
  - destruct l as [|b l]; [discriminate|].
    destruct (N.eqb a b); [|discriminate].
    cbn [List.length]. rewrite (IH l H). reflexivity.
Qed.

Lemma strip_any_shorter (ws : list (list N)) (l r : list N) :
  Forall (fun w => w <> []) ws ->
  JS.strip_any ws l = Some r -> (List.length r < List.length l)%nat.
Proof.
  induction 1 as [|w ws Hw _ IH]; cbn; [discriminate|].
  destruct (JS.strip_prefix w l) as [r'|] eqn:E; [|exact IH].
  intros [= <-]. apply strip_prefix_length in E.
  destruct w; [contradiction|]. cbn [List.length] in E. lia.
Qed.

(** The fuel is enough: what [strip_all] returns starts with no
    character of the set. *)
Lemma strip_all_done (ws : list (list N)) (fuel : nat) (l : list N) :
  Forall (fun w => w <> []) ws ->
  (List.length l <= fuel)%nat ->
  JS.strip_any ws (JS.strip_all fuel ws l) = None.
Proof.
  intros Hws. revert l. induction fuel as [|fuel IH]; intros l Hl; cbn.
  - destruct l; [|cbn in Hl; lia]. clear Hl.
    induction Hws as [|w ws Hw _ IHws]; [reflexivity|]. cbn.
    destruct w; [contradiction | exact IHws].
  - destruct (JS.strip_any ws l) as [r|] eqn:E; [|exact E].
    apply IH. pose proof (strip_any_shorter ws l r Hws E). lia.
Qed.

Lemma trimStart_done (l : list N) :
  JS.strip_any JS.WhiteSpace (JS.trimStart_bytes l) = None.
Proof.
  apply strip_all_done; [|reflexivity].
  unfold JS.WhiteSpace. repeat constructor; discriminate.
Qed.

Lemma trimEnd_done (l : list N) :
  JS.strip_any (map (@rev N) JS.WhiteSpace) (rev (JS.trimEnd_bytes l)) = None.
Proof.
  unfold JS.trimEnd_bytes. rewrite rev_involutive.
  apply strip_all_done; [|rewrite length_rev; reflexivity].
  unfold JS.WhiteSpace. repeat constructor; discriminate.
Qed.

(** *** Running handlers *)

Lemma same_selected_refl (a : option string) : same_selected a a = true.
Proof. destruct a as [x|]; simpl; [apply String.eqb_refl | reflexivity]. Qed.

Lemma truthy_empty (x : string) : x = "" -> JS.truthy x = false.
Proof. intros ->. reflexivity. Qed.

Lemma truthy_nonempty (x : string) : x <> "" -> JS.truthy x = true.
Proof.
  intros H. unfold JS.truthy. destruct (String.eqb_spec x ""); [contradiction | reflexivity].
Qed.

(** A handler that leaves [selected] alone is the whole action: the
    effect hook does not run. *)
Lemma dispatch_no_effect (e : event) (w : world) (s s1 : state)
    (o : outcome unit) (t : list request) :
  exec (handler e s) w s = (o, s1, t) ->
  selected s1 = selected s ->
  dispatch e w s = (s1, t).
Proof.
  intros He Hs. unfold dispatch. rewrite He, Hs, same_selected_refl. reflexivity.
Qed.

(** [res.ok] by the status: [by_status H] turns a bound [H] on
    [status res] into the value of [ok res], computed from [ok] itself. *)
Ltac by_status H :=
  match type of H with
  | 200 <= status ?r <= 299 =>
      let E := fresh in
      assert (E : ok r = true)
        by (unfold ok; apply andb_true_iff; split; apply Z.leb_le; lia);
      clear H; rename E into H
  | status ?r < 200 \/ 299 < status ?r =>
      let E := fresh in
      assert (E : ok r = false)
        by (unfold ok; apply andb_false_iff;
            destruct H; [left | right]; apply Z.leb_gt; lia);
      clear H; rename E into H
  end.

(** *** Runs of the two fetchers *)

(** How [fetchReviews] ends, by the answer to its request. *)
Lemma exec_fetchReviews (title : option string) (w : world) (s : state) :
  exec (fetchReviews title) w s =
    (Returned tt, reviews_loaded (network w (GET (reviews_url title))) s,
     [GET (reviews_url title)]).
Proof.
  unfold fetchReviews, reviews_loaded. cbn.
  destruct (network w (GET (reviews_url title))) as [res|m]; cbn; [|reflexivity].
  unfold res_json. destruct (json_body res); reflexivity.
Qed.

(** How [fetchMovies] ends, by the answer to its request. *)
Lemma exec_fetchMovies (q : string) (p : Z) (w : world) (s : state) :
  exec (fetchMovies q p) w s =
    (Returned tt,
     let s0 := set_totalResults (Some 0) (set_movies (Some []) (set_error "" s)) in
     match network w (GET (search_url q p)) with
     | Resolved res =>
         match json_body res with
         | Json data =>
             if ok res
             then set_page p (set_totalResults (data_totalResults data)
                                (set_movies (data_results data) s0))
             else set_error (JS.or_else (data_error data) "Search failed") s0
         | NotJson m => set_error m s0
         end
     | Rejected m => set_error m s0
     end,
     [GET (search_url q p)]).
Proof.
  unfold fetchMovies. cbn.
  destruct (network w (GET (search_url q p))) as [res|m]; cbn; [|reflexivity].
  unfold res_json. destruct (json_body res); cbn; [|reflexivity].
  destruct (ok res); reflexivity.
Qed.

Lemma fetchReviews_keeps (title : option string) (w : world) (s : state) :
  let s' := snd (fst (exec (fetchReviews title) w s)) in
  search_view s' = search_view s /\ selected s' = selected s
  /\ reviewText s' = reviewText s.
Proof.
  rewrite exec_fetchReviews. cbn [fst snd]. unfold reviews_loaded.
  destruct (network w _) as [res|m]; [destruct (json_body res)|]; repeat split.
Qed.

(** *** Guards *)

Lemma SearchForm_blank (w : world) (s : state) :
  JS.truthy (JS.trim (keyword s)) = false ->
  SearchForm w s = (s, []).
Proof.
  intros H. unfold SearchForm.
  apply dispatch_no_effect with (o := Returned tt); [|reflexivity].
  cbn [handler]. unfold handleSearch. rewrite H. reflexivity.
Qed.

Lemma DeleteReview_declined (id : Z) (w : world) (s : state) :
  confirm w "Delete this review?" = false ->
  DeleteReview id w s = (s, []).
Proof.
  intros H. unfold DeleteReview.
  apply dispatch_no_effect with (o := Returned tt); [|reflexivity].
  cbn [handler]. unfold deleteReview. cbn. rewrite H. reflexivity.
Qed.

(** C8. Submitting the search form with a keyword that is empty or
    white space only after trimming does nothing: no request is issued
    and the state is the one before. *)
Theorem search_blank_keyword_noop (w : world) (s : state) :
  JS.trim (keyword s) = "" ->
  SearchForm w s = (s, []).
Proof. intros H. apply SearchForm_blank, truthy_empty, H. Qed.

Lemma search_blank_keyword_noop_witness :
  SearchForm {| network := fun _ => Rejected "offline"; confirm := fun _ => true |}
             (set_keyword "   " initial)
  = (set_keyword "   " initial, []).
Proof. exact (search_blank_keyword_noop _ (set_keyword "   " initial) eq_refl). Defined.

(** C7. When the user declines the confirmation of a delete, no request
    is issued and the whole state, the review list included, is the one
    before. *)
Theorem delete_declined_noop (id : Z) (w : world) (s : state) :
  confirm w "Delete this review?" = false ->
  DeleteReview id w s = (s, []).
Proof. exact (DeleteReview_declined id w s). Qed.

Lemma delete_declined_noop_witness :
  DeleteReview 7
    {| network := fun _ => Resolved {| status := 204; json_body := NotJson "" |};
       confirm := fun _ => false |}
    (set_reviews (ReviewArray [ {| Review.id := 7; Review.reviewText := "Great film" |} ])
       (set_selected (Some "Batman") initial))
  = (set_reviews (ReviewArray [ {| Review.id := 7; Review.reviewText := "Great film" |} ])
       (set_selected (Some "Batman") initial), []).
Proof. apply delete_declined_noop. reflexivity. Defined.

(** *** Runs of the actions *)

Lemma ChangePage_run (p : Z) (w : world) (s : state) :
  ChangePage p w s =
    (snd (fst (exec (fetchMovies (keyword s) p) w s)), [GET (search_url (keyword s) p)]).
Proof.
  unfold ChangePage.
  apply dispatch_no_effect with (o := Returned tt); cbn [handler];
    rewrite exec_fetchMovies; [reflexivity|].
  cbn [fst snd]. destruct (network w _) as [res|m];
    [destruct (json_body res); [destruct (ok res)|]|]; reflexivity.
Qed.

Lemma SearchForm_run (w : world) (s : state) :
  JS.trim (keyword s) <> "" ->
  SearchForm w s =
    (snd (fst (exec (fetchMovies (keyword s) 1) w (set_selected None (set_error "" s)))),
     [GET (search_url (keyword s) 1)]).
Proof.
  intros H. unfold SearchForm, dispatch. cbn [handler]. unfold handleSearch.
  rewrite (truthy_nonempty _ H). cbn [negb].
  change (exec _ w s) with
    (exec (fetchMovies (keyword s) 1) w (set_selected None (set_error "" s))).
  rewrite exec_fetchMovies. cbn [fst snd].
  set (s1 := match network w _ with Resolved _ => _ | Rejected _ => _ end).
  assert (Hs1 : selected s1 = None).
  { subst s1. destruct (network w _) as [res|m];
      [destruct (json_body res); [destruct (ok res)|]|]; reflexivity. }
  rewrite Hs1. destruct (selected s) as [title|]; cbn [same_selected]; [|reflexivity].
  unfold effect. rewrite Hs1. reflexivity.
Qed.

Lemma SubmitReview_run (w : world) (s : state) :
  JS.trim (reviewText s) <> "" ->
  SubmitReview w s =
    match network w (post_request s) with
    | Resolved res =>
        if ok res
        then (reviews_loaded (network w (reviews_request s)) (set_reviewText "" s),
              [post_request s; reviews_request s])
        else (set_error "Submit failed" s, [post_request s])
    | Rejected m => (set_error m s, [post_request s])
    end.
Proof.
  intros H. unfold SubmitReview.
  assert (He : exec (handler SubmitClick s) w s =
    match network w (post_request s) with
    | Resolved res =>
        if ok res
        then (Returned tt,
              reviews_loaded (network w (reviews_request s)) (set_reviewText "" s),
              [post_request s; reviews_request s])
        else (Returned tt, set_error "Submit failed" s, [post_request s])
    | Rejected m => (Returned tt, set_error m s, [post_request s])
    end).
  { cbn [handler]. unfold submitReview. rewrite (truthy_nonempty _ H). cbn [negb].
    fold (post_request s). cbn.
    destruct (network w (post_request s)) as [res|m]; cbn; [|reflexivity].
    destruct (ok res); cbn; [|reflexivity].
    fold (reviews_request s). unfold reviews_loaded.
    destruct (network w (reviews_request s)) as [res'|m']; cbn; [|reflexivity].
    unfold res_json. destruct (json_body res'); reflexivity. }
  destruct (network w (post_request s)) as [res|m];
    [destruct (ok res)|];
    (eapply dispatch_no_effect; [exact He|]); try reflexivity.
  unfold reviews_loaded.
  destruct (network w (reviews_request s)) as [res'|m'];
    [destruct (json_body res')|]; reflexivity.
Qed.

Lemma DeleteReview_run (id : Z) (w : world) (s : state) :
  confirm w "Delete this review?" = true ->
  DeleteReview id w s =
    match network w (delete_request id) with
    | Resolved res =>
        if status res =? 204
        then (reviews_loaded (network w (reviews_request s)) s,
              [delete_request id; reviews_request s])
        else (set_error "Delete failed" s, [delete_request id])
    | Rejected m => (set_error m s, [delete_request id])
    end.
Proof.
  intros H. unfold DeleteReview.
  assert (He : exec (handler (DeleteClick id) s) w s =
    match network w (delete_request id) with
    | Resolved res =>
        if status res =? 204
        then (Returned tt, reviews_loaded (network w (reviews_request s)) s,
              [delete_request id; reviews_request s])
        else (Returned tt, set_error "Delete failed" s, [delete_request id])
    | Rejected m => (Returned tt, set_error m s, [delete_request id])
    end).
  { cbn [handler]. unfold deleteReview. cbn. rewrite H. cbn.
    fold (delete_request id).
    destruct (network w (delete_request id)) as [res|m]; cbn; [|reflexivity].
    destruct (status res =? 204); cbn; [|reflexivity].
    fold (reviews_request s). unfold reviews_loaded.
    destruct (network w (reviews_request s)) as [res'|m']; cbn; [|reflexivity].
    unfold res_json. destruct (json_body res'); reflexivity. }
  destruct (network w (delete_request id)) as [res|m];
    [destruct (status res =? 204)|];
    (eapply dispatch_no_effect; [exact He|]); try reflexivity.
  unfold reviews_loaded.
  destruct (network w (reviews_request s)) as [res'|m'];
    [destruct (json_body res')|]; reflexivity.
Qed.

(** The search form with a usable keyword is the click on page 1, after
    which no title is selected. *)
Lemma SearchForm_as_page_1 (w : world) (s : state) :
  JS.trim (keyword s) <> "" ->
  SearchForm w s = (set_selected None (fst (ChangePage 1 w s)), snd (ChangePage 1 w s)).
Proof.
  intros H. rewrite (SearchForm_run w s H), ChangePage_run, !exec_fetchMovies.
  cbn [fst snd]. f_equal.
  destruct (network w _) as [res|m];
    [destruct (json_body res); [destruct (ok res)|]|]; reflexivity.
Qed.

(** *** Searching *)

(** C10. When a search fails (no connection, or a status outside
    200..299), the current page is the one before the call, and the items
    are empty and the total 0, as they were set before the request. *)
Theorem failed_search_keeps_page (p : Z) (w : world) (s : state) :
  failed (network w (GET (search_url (keyword s) p))) ->
  let s' := fst (ChangePage p w s) in
  page s' = page s /\ movies s' = Some [] /\ totalResults s' = Some 0
  /\ movies (at_first_await (handler (PageClick p) s) s) = Some []
  /\ totalResults (at_first_await (handler (PageClick p) s) s) = Some 0
  /\ (p = 1 -> JS.trim (keyword s) <> "" ->
      let s1 := fst (SearchForm w s) in
      page s1 = page s /\ movies s1 = Some [] /\ totalResults s1 = Some 0).
Proof.
  intros Hf s'.
  assert (H3 : page s' = page s /\ movies s' = Some [] /\ totalResults s' = Some 0).
  { subst s'. rewrite ChangePage_run, exec_fetchMovies. cbn [fst snd].
    destruct (network w _) as [res|m]; cbn in Hf.
    - destruct (json_body res); [rewrite Hf|]; repeat split.
    - repeat split. }
  destruct H3 as (Hp & Hm & Ht).
  do 3 (split; [assumption|]).
  split; [reflexivity|]. split; [reflexivity|].
  intros -> Hk s1. subst s1. rewrite (SearchForm_as_page_1 w s Hk).
  cbn [fst]. fold s'. repeat split; assumption.
Qed.

Lemma failed_search_keeps_page_witness :
  let w := {| network := fun _ => Resolved {| status := 500;
                                             json_body := Json (ErrorObject "Upstream down") |};
              confirm := fun _ => true |} in
  let s := set_page 2 (set_keyword "batman" initial) in
  page (fst (ChangePage 3 w s)) = 2.
Proof.
  intros w s.
  exact (proj1 (failed_search_keeps_page 3 w s eq_refl)).
Defined.





(** The first scenario of the specification: searching "batman" with 15
    hits shows two pagination buttons, the first one disabled. *)
Example batman_two_pages :
  let w := {| network := fun _ =>
                Resolved {| status := 200;
                            json_body := Json (SearchPage
                              [ {| Movie.imdbID := "tt1"; Movie.Title := "Batman";
                                   Movie.Year := "1989"; Movie.Poster := "N/A" |} ] 15) |};
              confirm := fun _ => true |} in
  let '(s, t) := session [ (KeywordInput "batman", w); (SearchSubmit, w) ] initial in
  t = [GET "/api/search?q=batman&page=1"]
  /\ option_map (map (fun b => (key b, disabled b))) (renderPagination s)
     = Some [(1, true); (2, false)].
Proof. split; reflexivity. Qed.

(** *** Reviews *)

(** How [FetchReviews] ends: a rejected request or a body that is not
    JSON sets the load-failure message and keeps the list; a JSON body,
    whatever the status, replaces the list and leaves the message. *)
Lemma FetchReviews_cases (title : string) (w : world) (s : state) :
  FetchReviews title w s =
    (reviews_loaded (network w (GET (reviews_url (Some title)))) s,
     [GET (reviews_url (Some title))]).
Proof. unfold FetchReviews. rewrite exec_fetchReviews. reflexivity. Qed.

Lemma FetchReviews_no_answer (title : string) (w : world) (s : state) :
  (exists m, network w (GET (reviews_url (Some title))) = Rejected m)
  \/ (exists res m, network w (GET (reviews_url (Some title))) = Resolved res
                    /\ json_body res = NotJson m) ->
  let s' := fst (FetchReviews title w s) in
  error s' = "Failed to load reviews." /\ reviews s' = reviews s.
Proof.
  intros H s'. subst s'. rewrite FetchReviews_cases. cbn [fst]. unfold reviews_loaded.
  destruct H as [[m ->] | (res & m & -> & ->)]; split; reflexivity.
Qed.

(** A JSON body replaces the list and leaves the message, whatever the
    status of the answer: [fetchReviews] reads neither [res.ok] nor
    [res.status]. *)
Lemma FetchReviews_any_status (title : string) (w : world) (s : state)
    (res : response) (list : json) :
  network w (GET (reviews_url (Some title))) = Resolved res ->
  json_body res = Json list ->
  FetchReviews title w s = (set_reviews list s, [GET (reviews_url (Some title))]).
Proof.
  intros Hn Hj. rewrite FetchReviews_cases. unfold reviews_loaded.
  rewrite Hn, Hj. reflexivity.
Qed.

(** C2, at a failing input. The review fetch is answered 500 with the
    body [{ error: "Database error" }]: the review list held before is
    replaced by that body and no error message is set. *)
Example fetchReviews_status_500 :
  let w := {| network := fun _ =>
                Resolved {| status := 500;
                            json_body := Json (ErrorObject "Database error") |};
              confirm := fun _ => true |} in
  let s := set_reviews (ReviewArray [ {| Review.id := 1; Review.reviewText := "Great film" |} ])
             (set_selected (Some "Batman") initial) in
  FetchReviews "Batman" w s
  = (set_reviews (ErrorObject "Database error") s, [GET "/api/reviews/Batman"])
  /\ error (fst (FetchReviews "Batman" w s)) = ""
  /\ reviews (fst (FetchReviews "Batman" w s)) <> reviews s.
Proof.
  intros w s. split; [reflexivity|]. split; [reflexivity|]. discriminate.
Qed.

(** C6. With a review text that is non-empty after trim, [SubmitReview]
    POSTs the selected title and the text as JSON; on a 2xx answer it
    clears the draft and runs [fetchReviews] on the selected title; on a
    failure (another status, or no connection) it sets the error message
    and keeps the draft. *)
Theorem submit_review_contract (w : world) (s : state) :
  JS.trim (reviewText s) <> "" ->
  let post := {| method := "POST"; url := "/api/reviews";
                 headers := [("Content-Type", "application/json")];
                 body := Some {| movieTitle := selected s;
                                 post_reviewText := reviewText s |} |} in
  (forall res, network w post = Resolved res -> 200 <= status res <= 299 ->
     SubmitReview w s =
       (snd (fst (exec (fetchReviews (selected s)) w (set_reviewText "" s))),
        post :: snd (exec (fetchReviews (selected s)) w (set_reviewText "" s)))
     /\ reviewText (fst (SubmitReview w s)) = ""
     /\ (JS.isWellFormed_opt (selected s) = true ->
         snd (SubmitReview w s) = [post; GET (reviews_url (selected s))]
         /\ (forall res' list,
               network w (GET (reviews_url (selected s))) = Resolved res' ->
               json_body res' = Json list ->
               reviews (fst (SubmitReview w s)) = list
               /\ error (fst (SubmitReview w s)) = error s)))
  /\ (forall res, network w post = Resolved res -> (status res < 200 \/ 299 < status res) ->
       SubmitReview w s = (set_error "Submit failed" s, [post])
       /\ error (fst (SubmitReview w s)) = "Submit failed"
       /\ reviewText (fst (SubmitReview w s)) = reviewText s
       /\ reviews (fst (SubmitReview w s)) = reviews s
       /\ snd (SubmitReview w s) = [post])
  /\ (forall m, network w post = Rejected m ->
       SubmitReview w s = (set_error m s, [post])
       /\ error (fst (SubmitReview w s)) = m
       /\ reviewText (fst (SubmitReview w s)) = reviewText s
       /\ reviews (fst (SubmitReview w s)) = reviews s
       /\ snd (SubmitReview w s) = [post]).
Proof.
  intros H post. change post with (post_request s).
  rewrite (SubmitReview_run w s H).
  split; [|split].
  - intros res -> Hst. by_status Hst. rewrite Hst, exec_fetchReviews. cbn [fst snd].
    split; [reflexivity|]. split.
    + unfold reviews_loaded, reviews_request.
      destruct (network w _) as [res'|m]; [destruct (json_body res')|]; reflexivity.
    + intros _. split; [reflexivity|].
      intros res' list Hn Hj. unfold reviews_loaded, reviews_request.
      rewrite Hn, Hj. split; reflexivity.
  - intros res -> Hst. by_status Hst. rewrite Hst. repeat split.
  - intros m ->. repeat split.
Qed.

Lemma submit_review_contract_witness :
  let accepting := {| network := fun r =>
                if String.eqb (method r) "POST"
                then Resolved {| status := 201; json_body := NotJson "Unexpected end of JSON input" |}
                else Resolved {| status := 200;
                                 json_body := Json (ReviewArray
                                   [ {| Review.id := 1; Review.reviewText := "Great film" |} ]) |};
              confirm := fun _ => true |} in
  let refusing := {| network := fun _ =>
                Resolved {| status := 500; json_body := Json (ErrorObject "Database error") |};
              confirm := fun _ => true |} in
  let s := set_reviewText "Great film" (set_selected (Some "Batman") initial) in
  (reviewText (fst (SubmitReview accepting s)) = ""
   /\ snd (SubmitReview accepting s) =
        [ {| method := "POST"; url := "/api/reviews";
             headers := [("Content-Type", "application/json")];
             body := Some {| movieTitle := Some "Batman";
                             post_reviewText := "Great film" |} |};
          GET "/api/reviews/Batman" ])
  /\ (error (fst (SubmitReview refusing s)) = "Submit failed"
      /\ reviewText (fst (SubmitReview refusing s)) = "Great film").
Proof.
  intros accepting refusing s.
  assert (Hs : JS.trim (reviewText s) <> "") by (vm_compute; discriminate).
  split.
  - destruct (proj1 (submit_review_contract accepting s Hs) _ eq_refl ltac:(cbn; lia))
      as (_ & Hd & Ht).
    split; [exact Hd | exact (proj1 (Ht eq_refl))].
  - destruct (proj1 (proj2 (submit_review_contract refusing s Hs)) _ eq_refl
                ltac:(right; cbn; lia))
      as (_ & He & Hd & _).
    split; [exact He | exact Hd].
Defined.

Lemma reviews_request_not_delete (id : Z) (s : state) :
  reviews_request s <> delete_request id.
Proof. unfold reviews_request, delete_request, GET. intros H. discriminate H. Qed.

(** C4. A confirmed delete counts as done exactly when the answer's
    status is 204: then [fetchReviews] runs on the selected title; with
    any other status, 200 included, the error message is set and the
    review list is not fetched again. *)
Theorem delete_review_status (id : Z) (w : world) (s : state) (res : response) :
  confirm w "Delete this review?" = true ->
  JS.isSafeInteger id = true ->
  let del := {| method := "DELETE"; url := "/api/reviews/" ++ JS.toString_num id;
                headers := []; body := None |} in
  network w del = Resolved res ->
  (status res = 204 ->
     DeleteReview id w s =
       (snd (fst (exec (fetchReviews (selected s)) w s)),
        del :: snd (exec (fetchReviews (selected s)) w s))
     /\ (JS.isWellFormed_opt (selected s) = true ->
         snd (DeleteReview id w s) = [del; GET (reviews_url (selected s))]
         /\ (forall res' list,
               network w (GET (reviews_url (selected s))) = Resolved res' ->
               json_body res' = Json list ->
               reviews (fst (DeleteReview id w s)) = list
               /\ error (fst (DeleteReview id w s)) = error s)))
  /\ (status res <> 204 ->
       DeleteReview id w s = (set_error "Delete failed" s, [del])
       /\ error (fst (DeleteReview id w s)) = "Delete failed"
       /\ reviews (fst (DeleteReview id w s)) = reviews s
       /\ snd (DeleteReview id w s) = [del])
  /\ (JS.isWellFormed_opt (selected s) = true ->
      (In (GET (reviews_url (selected s))) (snd (DeleteReview id w s))
       <-> status res = 204)).
Proof.
  intros Hc _ del. change del with (delete_request id). intros Hn.
  rewrite (DeleteReview_run id w s Hc), Hn, exec_fetchReviews.
  cbn [fst snd]. destruct (Z.eqb_spec (status res) 204) as [E|E].
  - split; [|split; [contradiction|]].
    + intros _. split; [reflexivity|]. intros _. split; [reflexivity|].
      intros res' list Hn' Hj. unfold reviews_loaded, reviews_request.
      rewrite Hn', Hj. split; reflexivity.
    + intros _. split; [intros _; exact E | intros _; right; left; reflexivity].
  - split; [contradiction|]. split; [intros _; repeat split|].
    intros _. split; [|contradiction].
    intros [Hin|[]]. exfalso. symmetry in Hin.
    exact (reviews_request_not_delete id s Hin).
Qed.

Lemma delete_review_status_witness :
  let answering_200 :=
        {| network := fun _ => Resolved {| status := 200; json_body := Json EmptyObject |};
           confirm := fun _ => true |} in
  let answering_204 :=
        {| network := fun r =>
             if String.eqb (method r) "DELETE"
             then Resolved {| status := 204; json_body := NotJson "Unexpected end of JSON input" |}
             else Resolved {| status := 200; json_body := Json (ReviewArray []) |};
           confirm := fun _ => true |} in
  let s := set_reviews (ReviewArray [ {| Review.id := 7; Review.reviewText := "Great film" |} ])
             (set_selected (Some "Batman") initial) in
  (error (fst (DeleteReview 7 answering_200 s)) = "Delete failed"
   /\ snd (DeleteReview 7 answering_200 s)
      = [ {| method := "DELETE"; url := "/api/reviews/7"; headers := []; body := None |} ])
  /\ (snd (DeleteReview 7 answering_204 s)
      = [ {| method := "DELETE"; url := "/api/reviews/7"; headers := []; body := None |};
          GET "/api/reviews/Batman" ]
      /\ reviews (fst (DeleteReview 7 answering_204 s)) = ReviewArray []).
Proof.
  intros answering_200 answering_204 s. split.
  - destruct (proj1 (proj2 (delete_review_status 7 answering_200 s _
                              eq_refl eq_refl eq_refl)))
      as (_ & He & _ & Ht); [discriminate|].
    split; [exact He | exact Ht].
  - destruct (proj1 (delete_review_status 7 answering_204 s _ eq_refl eq_refl eq_refl)
                eq_refl) as (_ & H).
    destruct (H eq_refl) as [Ht Hl].
    split; [exact Ht | exact (proj1 (Hl _ _ eq_refl eq_refl))].
Defined.

(** *** The error message *)

(** C3, refuted for [SubmitReview]. An earlier failure left the message
    "Submit failed"; the next submission is accepted (201) and the list
    reloads (200), and the message is still there, both when the request
    is issued and at the end. *)
Lemma submit_keeps_stale_error :
  let w := {| network := fun r =>
                if String.eqb (method r) "POST"
                then Resolved {| status := 201; json_body := Json EmptyObject |}
                else Resolved {| status := 200;
                                 json_body := Json (ReviewArray
                                   [ {| Review.id := 1; Review.reviewText := "Great film" |} ]) |};
              confirm := fun _ => true |} in
  let s := set_error "Submit failed"
             (set_reviewText "Great film" (set_selected (Some "Batman") initial)) in
  JS.truthy (error s) = true
  /\ JS.truthy (JS.trim (reviewText s)) = true
  /\ snd (SubmitReview w s) = [post_request s; GET "/api/reviews/Batman"]
  /\ error (at_first_await (handler SubmitClick s) s) = "Submit failed"
  /\ error (fst (SubmitReview w s)) = "Submit failed".
Proof. intros w s. repeat split. Qed.

(** C3, as the code has it. A search with a usable (well-formed, not
    blank) keyword clears the error message before its request is issued,
    and the message is empty after a successful search; a page click does
    the same.
    [SubmitReview] does not clear it: the message is the old one when the
    request is issued, and after an accepted submission whose reload
    succeeds the state differs from the old one in the draft and the
    review list only.  It is written by failures only: the load failure
    when the submission is accepted and the reload yields no list,
    "Submit failed" for an answer outside 2xx, the text of the rejection
    when the POST is rejected. *)
Theorem search_clears_error_submit_keeps (w : world) (s : state) :
  (JS.trim (keyword s) <> "" -> JS.isWellFormed (keyword s) = true ->
     error (at_first_await (handler SearchSubmit s) s) = ""
     /\ (forall res data,
           network w (GET (search_url (keyword s) 1)) = Resolved res ->
           200 <= status res <= 299 -> json_body res = Json data ->
           error (fst (SearchForm w s)) = ""))
  /\ (forall p, JS.isWellFormed (keyword s) = true -> JS.isSafeInteger p = true ->
       error (at_first_await (handler (PageClick p) s) s) = ""
       /\ (forall res data,
             network w (GET (search_url (keyword s) p)) = Resolved res ->
             200 <= status res <= 299 -> json_body res = Json data ->
             error (fst (ChangePage p w s)) = ""))
  /\ (JS.trim (reviewText s) <> "" ->
       error (at_first_await (handler SubmitClick s) s) = error s
       /\ (forall res res' list,
             JS.isWellFormed_opt (selected s) = true ->
             network w (post_request s) = Resolved res -> 200 <= status res <= 299 ->
             network w (reviews_request s) = Resolved res' ->
             json_body res' = Json list ->
             SubmitReview w s =
               (set_reviews list (set_reviewText "" s),
                [post_request s; reviews_request s])
             /\ error (fst (SubmitReview w s)) = error s)
       /\ (forall res,
             network w (post_request s) = Resolved res -> 200 <= status res <= 299 ->
             no_list (network w (reviews_request s)) ->
             error (fst (SubmitReview w s)) = "Failed to load reviews.")
       /\ (forall res,
             network w (post_request s) = Resolved res -> (status res < 200 \/ 299 < status res) ->
             error (fst (SubmitReview w s)) = "Submit failed")
       /\ (forall m,
             network w (post_request s) = Rejected m ->
             error (fst (SubmitReview w s)) = m)).
Proof.
  assert (Hpage : forall p,
       error (at_first_await (handler (PageClick p) s) s) = ""
       /\ (forall res data,
             network w (GET (search_url (keyword s) p)) = Resolved res ->
             200 <= status res <= 299 -> json_body res = Json data ->
             error (fst (ChangePage p w s)) = "")).
  { intros p. split; [reflexivity|]. intros res data Hn Hok Hj.
    by_status Hok. rewrite ChangePage_run, exec_fetchMovies. cbn [fst snd].
    rewrite Hn, Hj, Hok. reflexivity. }
  split; [|split; [intros p _ _; exact (Hpage p)|]].
  - intros Hk _. split.
    + cbn [handler]. unfold handleSearch. rewrite (truthy_nonempty _ Hk). reflexivity.
    + intros res data Hn Hok Hj. rewrite (SearchForm_as_page_1 w s Hk). cbn [fst].
      exact (proj2 (Hpage 1) res data Hn Hok Hj).
  - intros Hr. split.
    + cbn [handler]. unfold submitReview. rewrite (truthy_nonempty _ Hr). reflexivity.
    + split; [|split; [|split]].
      * intros res res' list _ Hn Hok Hn' Hj. by_status Hok.
        rewrite (SubmitReview_run w s Hr), Hn, Hok, Hn'. unfold reviews_loaded.
        rewrite Hj. split; reflexivity.
      * intros res Hn Hok Hl. by_status Hok.
        rewrite (SubmitReview_run w s Hr), Hn, Hok. cbn [fst].
        unfold reviews_loaded. unfold no_list in Hl.
        destruct (network w (reviews_request s)) as [res'|m];
          [destruct (json_body res'); [contradiction|]|]; reflexivity.
      * intros res Hn Hok. by_status Hok.
        rewrite (SubmitReview_run w s Hr), Hn, Hok. reflexivity.
      * intros m Hn. rewrite (SubmitReview_run w s Hr), Hn. reflexivity.
Qed.

Lemma search_clears_error_submit_keeps_witness :
  let w := {| network := fun r =>
                if String.eqb (method r) "POST"
                then Resolved {| status := 201; json_body := Json EmptyObject |}
                else if String.prefix "/api/search" (url r)
                then Resolved {| status := 200; json_body := Json (SearchPage [] 0) |}
                else Rejected "Failed to fetch";
              confirm := fun _ => true |} in
  let s := set_error "Search failed" (set_keyword "batman" initial) in
  let s' := set_error "Submit failed"
              (set_reviewText "Great film" (set_selected (Some "Batman") initial)) in
  error (at_first_await (handler SearchSubmit s) s) = ""
  /\ error (fst (SearchForm w s)) = ""
  /\ error (at_first_await (handler SubmitClick s') s') = "Submit failed"
  /\ error (fst (SubmitReview w s')) = "Failed to load reviews.".
Proof.
  intros w s s'.
  assert (Hk : JS.trim (keyword s) <> "") by (vm_compute; discriminate).
  assert (Hr : JS.trim (reviewText s') <> "") by (vm_compute; discriminate).
  destruct (proj1 (search_clears_error_submit_keeps w s) Hk eq_refl) as [H1 H2].
  destruct (proj2 (proj2 (search_clears_error_submit_keeps w s')) Hr)
    as (H3 & _ & H4 & _).
  split; [exact H1|]. split; [exact (H2 _ _ eq_refl ltac:(cbn; lia) eq_refl)|].
  split; [exact H3|]. exact (H4 _ eq_refl ltac:(cbn; lia) I).
Defined.

(** *** Changing the page *)

(** Every pagination button runs the page click of its own number. *)
Lemma pagination_buttons (s : state) (bs : list button) (b : button) :
  renderPagination s = Some bs -> In b bs ->
  onClick b = handler (PageClick (key b)) s
  /\ disabled b = Z.eqb (key b) (page s).
Proof.
  unfold renderPagination. destruct (totalResults s) as [n|].
  - destruct (JS.ceil_div n 10 <=? 1); [discriminate|].
    intros [= <-] Hin. apply in_map_iff in Hin. destruct Hin as (i & <- & _).
    split; reflexivity.
  - intros [= <-] [].
Qed.

(** With no title selected the search form is [Search] on the held
    keyword and page 1. *)
Lemma handleSearch_is_Search (w : world) (s : state) :
  selected s = None ->
  SearchForm w s = Search_spec (keyword s) 1 w s.
Proof.
  intros Hsel. unfold Search_spec.
  destruct (String.eqb_spec (JS.trim (keyword s)) "") as [E|E].
  - apply SearchForm_blank, truthy_empty, E.
  - rewrite (SearchForm_run w s E), exec_fetchMovies. cbn [fst snd].
    destruct s as [kw pg mv tr er sel rv rt]. cbn [selected] in Hsel. subst sel.
    unfold Search_outcome. cbn [keyword].
    destruct (network w (GET (search_url kw 1))) as [res|m];
      [destruct (json_body res); [destruct (ok res)|]|]; reflexivity.
Qed.

(** C1, refuted for a blank keyword. After a search for "batman" with 15
    hits the user empties the search box to two spaces; the button of
    page 2 is shown and enabled; clicking it issues a request for the
    blank keyword, where [Search] on that keyword does nothing.  On page
    1 the click differs in the same way from submitting the form. *)
Lemma change_page_blank_keyword :
  let w := {| network := fun _ =>
                Resolved {| status := 200;
                            json_body := Json (SearchPage
                              [ {| Movie.imdbID := "tt1"; Movie.Title := "Batman";
                                   Movie.Year := "1989"; Movie.Poster := "N/A" |} ] 15) |};
              confirm := fun _ => true |} in
  let s := fst (session [ (KeywordInput "batman", w); (SearchSubmit, w);
                          (KeywordInput "  ", w) ] initial) in
  JS.trim (keyword s) = ""
  /\ option_map (map (fun b => (key b, disabled b))) (renderPagination s)
       = Some [(1, true); (2, false)]
  /\ snd (ChangePage 2 w s) = [GET "/api/search?q=%20%20&page=2"]
  /\ Search_spec (keyword s) 2 w s = (s, [])
  /\ ChangePage 2 w s <> Search_spec (keyword s) 2 w s
  /\ snd (ChangePage 1 w s) = [GET "/api/search?q=%20%20&page=1"]
  /\ SearchForm w s = (s, []).
Proof.
  intros w s. repeat split. intros H. apply (f_equal snd) in H. discriminate H.
Qed.

(** C1, for usable keywords. When the held keyword is non-empty after
    trim, a click on page [p] makes the state transition and issues the
    request of [Search] on that keyword and page. *)
Theorem change_page_is_search (p : Z) (w : world) (s : state) :
  JS.trim (keyword s) <> "" ->
  ChangePage p w s = Search_spec (keyword s) p w s.
Proof.
  intros Hk. unfold Search_spec.
  destruct (String.eqb_spec (JS.trim (keyword s)) "") as [E|_]; [contradiction|].
  rewrite ChangePage_run, exec_fetchMovies. cbn [fst snd].
  unfold Search_outcome, set_error, set_movies, set_totalResults, set_page.
  cbn [keyword page movies totalResults error selected reviews reviewText].
  destruct (network w _) as [res|m];
    [destruct (json_body res); [destruct (ok res)|]|]; reflexivity.
Qed.

Lemma change_page_is_search_witness :
  let w := {| network := fun _ =>
                Resolved {| status := 200; json_body := Json (SearchPage [] 15) |};
              confirm := fun _ => true |} in
  let s := set_totalResults (Some 15) (set_keyword "batman" initial) in
  ChangePage 2 w s = Search_spec "batman" 2 w s.
Proof.
  intros w s.
  assert (Hk : JS.trim (keyword s) <> "") by (vm_compute; discriminate).
  exact (change_page_is_search 2 w s Hk).
Defined.

(** *** Going back *)

Lemma Back_run (w : world) (s : state) : Back w s = (set_selected None s, []).
Proof.
  unfold Back, dispatch. cbn.
  destruct (selected s) as [title|]; reflexivity.
Qed.

Lemma MovieClick_keeps_search_view (title : string) (w : world) (s : state) :
  search_view (fst (dispatch (MovieClick title) w s)) = search_view s.
Proof.
  unfold dispatch. cbn [handler]. unfold selectMovie. cbn.
  destruct (same_selected (selected s) (Some title)); [reflexivity|].
  unfold effect. cbn [selected set_reviewText set_selected].
  destruct (JS.truthy_opt (Some title)); [|reflexivity].
  rewrite exec_fetchReviews. cbn [fst]. unfold reviews_loaded.
  destruct (network w _) as [res|m]; [destruct (json_body res)|]; reflexivity.
Qed.

Lemma review_action_keeps_search_view (e : event) (w : world) (s : state) :
  review_action e = true ->
  search_view (fst (dispatch e w s)) = search_view s.
Proof.
  destruct e as [v| |p|title| |v| |id]; try discriminate; intros _.
  - rewrite (dispatch_no_effect (ReviewInput v) w s (set_reviewText v s) (Returned tt) []);
      reflexivity.
  - fold (SubmitReview w s).
    destruct (String.eqb_spec (JS.trim (reviewText s)) "") as [E|E].
    + unfold SubmitReview.
      rewrite (dispatch_no_effect SubmitClick w s s (Returned tt) []); try reflexivity.
      cbn [handler]. unfold submitReview. rewrite (truthy_empty _ E). reflexivity.
    + rewrite (SubmitReview_run w s E). unfold reviews_loaded.
      destruct (network w (post_request s)) as [res|m]; [destruct (ok res)|];
        try reflexivity.
      destruct (network w (reviews_request s)) as [res'|m'];
        [destruct (json_body res')|]; reflexivity.
  - fold (DeleteReview id w s).
    destruct (confirm w "Delete this review?") eqn:Hc.
    + rewrite (DeleteReview_run id w s Hc). unfold reviews_loaded.
      destruct (network w (delete_request id)) as [res|m];
        [destruct (status res =? 204)|]; try reflexivity.
      destruct (network w (reviews_request s)) as [res'|m'];
        [destruct (json_body res')|]; reflexivity.
    + rewrite (DeleteReview_declined id w s Hc). reflexivity.
Qed.

Lemma review_session_keeps_search_view (l : list (event * world)) (s : state) :
  Forall (fun ew => review_action (fst ew) = true) l ->
  search_view (fst (session l s)) = search_view s.
Proof.
  revert s. induction l as [|[e w] l IH]; intros s Hl; [reflexivity|].
  inversion Hl as [|? ? He Hl']; subst. cbn [fst] in He.
  cbn [session].
  destruct (dispatch e w s) as [s1 t1] eqn:Hd.
  specialize (IH s1 Hl').
  destruct (session l s1) as [s2 t2]. cbn [fst] in *.
  rewrite IH. rewrite <- (review_action_keeps_search_view e w s He), Hd. reflexivity.
Qed.

(** C9. In the review view, however the user got on there (a card was
    clicked, then reviews were typed, submitted or deleted), [Back] sets
    the selected title to null and issues no request; the keyword, the
    search result and the current page are the ones held before the card
    was clicked. *)
Theorem back_restores_search (s0 : state) (title : string) (w0 w : world)
    (l : list (event * world)) :
  Forall (fun ew => review_action (fst ew) = true) l ->
  let s := fst (session ((MovieClick title, w0) :: l) s0) in
  Back w s = (set_selected None s, [])
  /\ selected (fst (Back w s)) = None
  /\ keyword (fst (Back w s)) = keyword s0
  /\ movies (fst (Back w s)) = movies s0
  /\ totalResults (fst (Back w s)) = totalResults s0
  /\ page (fst (Back w s)) = page s0.
Proof.
  intros Hl s.
  assert (Hv : search_view s = search_view s0).
  { subst s. cbn [session].
    pose proof (MovieClick_keeps_search_view title w0 s0) as H0.
    destruct (dispatch (MovieClick title) w0 s0) as [s1 t1].
    pose proof (review_session_keeps_search_view l s1 Hl) as H1.
    destruct (session l s1) as [s2 t2]. cbn [fst] in *. congruence. }
  rewrite Back_run. cbn [fst]. split; [reflexivity|]. split; [reflexivity|].
  unfold search_view in Hv. injection Hv as Hk Hp Hm Ht.
  cbn [set_selected keyword movies totalResults page]. auto.
Qed.

Lemma back_restores_search_witness :
  let w := {| network := fun r =>
                if String.eqb (method r) "GET"
                then Resolved {| status := 200; json_body := Json (ReviewArray []) |}
                else Resolved {| status := 201; json_body := Json EmptyObject |};
              confirm := fun _ => true |} in
  let s0 := set_page 2 (set_totalResults (Some 15) (set_keyword "batman" initial)) in
  let s := fst (session [ (MovieClick "Batman", w); (ReviewInput "Great film", w);
                          (SubmitClick, w) ] s0) in
  Back w s = (set_selected None s, []) /\ page (fst (Back w s)) = 2.
Proof.
  intros w s0 s.
  assert (Hl : Forall (fun ew : event * world => review_action (fst ew) = true)
                 [ (ReviewInput "Great film", w); (SubmitClick, w) ])
    by (repeat constructor).
  pose proof (back_restores_search s0 "Batman" w w _ Hl) as H.
  split; [exact (proj1 H) | exact (proj2 (proj2 (proj2 (proj2 (proj2 H)))))].
Defined.

(** ** Further properties of the component *)

(** *** Selecting a movie *)

Lemma same_selected_true (a b : option string) : same_selected a b = true -> a = b.
Proof.
  destruct a as [x|], b as [y|]; cbn; try discriminate; [|reflexivity].
  intros H. apply String.eqb_eq in H. congruence.
Qed.

Lemma same_selected_false (a b : option string) : a <> b -> same_selected a b = false.
Proof.
  intros H. destruct (same_selected a b) eqn:E; [|reflexivity].
  apply same_selected_true in E. contradiction.
Qed.

Lemma MovieClick_run (title : string) (w : world) (s : state) :
  title <> "" -> selected s <> Some title ->
  dispatch (MovieClick title) w s =
    (reviews_loaded (network w (GET (reviews_url (Some title))))
       (set_reviewText "" (set_selected (Some title) s)),
     [GET (reviews_url (Some title))]).
Proof.
  intros Ht Hs. unfold dispatch. cbn [handler]. unfold selectMovie. cbn.
  rewrite (same_selected_false _ _ Hs).
  unfold effect. cbn [selected set_reviewText set_selected JS.truthy_opt].
  rewrite (truthy_nonempty _ Ht), exec_fetchReviews. reflexivity.
Qed.

(** X1. Clicking a card whose title is non-empty, well formed and not
    the selected one selects the title, empties the draft, and then
    fetches the reviews of that title exactly once: the action ends as
    [FetchReviews] on the title does from the state with the new
    selection, and a list that comes back is the review list. *)
Theorem select_movie_fetches_once (title : string) (w : world) (s : state) :
  title <> "" -> JS.isWellFormed title = true -> selected s <> Some title ->
  dispatch (MovieClick title) w s =
    FetchReviews title w (set_reviewText "" (set_selected (Some title) s))
  /\ snd (dispatch (MovieClick title) w s) = [GET (reviews_url (Some title))]
  /\ selected (fst (dispatch (MovieClick title) w s)) = Some title
  /\ reviewText (fst (dispatch (MovieClick title) w s)) = ""
  /\ (forall res list,
        network w (GET (reviews_url (Some title))) = Resolved res ->
        json_body res = Json list ->
        reviews (fst (dispatch (MovieClick title) w s)) = list
        /\ error (fst (dispatch (MovieClick title) w s)) = error s).
Proof.
  intros Ht _ Hs. rewrite (MovieClick_run title w s Ht Hs), FetchReviews_cases.
  cbn [fst snd]. split; [reflexivity|]. split; [reflexivity|].
  unfold reviews_loaded.
  destruct (network w (GET (reviews_url (Some title)))) as [res|m] eqn:Hn.
  - destruct (json_body res) as [data|m] eqn:Hj.
    + split; [reflexivity|]. split; [reflexivity|].
      intros res0 list [= <-] Hj0. rewrite Hj in Hj0. injection Hj0 as <-.
      split; reflexivity.
    + split; [reflexivity|]. split; [reflexivity|].
      intros res0 list [= <-] Hj0. rewrite Hj in Hj0. discriminate Hj0.
  - split; [reflexivity|]. split; [reflexivity|]. intros res list Hn0. discriminate Hn0.
Qed.

Lemma select_movie_fetches_once_witness :
  let w := {| network := fun _ =>
                Resolved {| status := 200;
                            json_body := Json (ReviewArray
                              [ {| Review.id := 1; Review.reviewText := "Great film" |} ]) |};
              confirm := fun _ => true |} in
  let s := set_reviewText "left over" initial in
  snd (dispatch (MovieClick "Batman") w s) = [GET "/api/reviews/Batman"]
  /\ selected (fst (dispatch (MovieClick "Batman") w s)) = Some "Batman"
  /\ reviewText (fst (dispatch (MovieClick "Batman") w s)) = ""
  /\ reviews (fst (dispatch (MovieClick "Batman") w s))
     = ReviewArray [ {| Review.id := 1; Review.reviewText := "Great film" |} ].
Proof.
  intros w s.
  destruct (select_movie_fetches_once "Batman" w s) as (_ & Ht & Hs & Hd & Hl);
    [discriminate | reflexivity | discriminate |].
  split; [exact Ht|]. split; [exact Hs|]. split; [exact Hd|].
  exact (proj1 (Hl _ _ eq_refl eq_refl)).
Defined.

Lemma visit_run (title : string) (w_in w_out : world) (s : state) :
  title <> "" -> selected s = None ->
  exists s', session (visit (title, w_in, w_out)) s = (s', [GET (reviews_url (Some title))])
             /\ selected s' = None.
Proof.
  intros Ht Hs. cbn [visit session].
  rewrite (MovieClick_run title w_in s Ht) by (rewrite Hs; discriminate).
  fold (Back w_out). rewrite Back_run.
  eexists. split; reflexivity.
Qed.

Lemma session_app (l1 l2 : list (event * world)) (s : state) :
  session (l1 ++ l2) s =
    (fst (session l2 (fst (session l1 s))),
     (snd (session l1 s) ++ snd (session l2 (fst (session l1 s))))%list).
Proof.
  revert s. induction l1 as [|[e w] l1 IH]; intros s; cbn [session app].
  - cbn [fst snd app]. destruct (session l2 s); reflexivity.
  - destruct (dispatch e w s) as [s1 t1]. rewrite IH.
    destruct (session l1 s1) as [s2 t2]. cbn [fst snd].
    rewrite app_assoc. reflexivity.
Qed.

(** X2. Nothing is cached: in a row of visits (card, then back) to
    non-empty, well-formed titles, every visit fetches the reviews of
    its title again, also when the title was visited before; the
    requests are exactly one per visit, in order. *)
Theorem every_visit_fetches (vs : list (string * world * world)) (s : state) :
  Forall (fun v => fst (fst v) <> "" /\ JS.isWellFormed (fst (fst v)) = true) vs ->
  selected s = None ->
  snd (session (flat_map visit vs) s)
  = map (fun v => GET (reviews_url (Some (fst (fst v))))) vs.
Proof.
  intros Hvs. revert s.
  induction Hvs as [|[[title w_in] w_out] vs [Ht _] _ IH]; intros s Hs; [reflexivity|].
  cbn [fst] in Ht.
  change (flat_map visit ((title, w_in, w_out) :: vs))
    with (visit (title, w_in, w_out) ++ flat_map visit vs)%list.
  rewrite session_app.
  destruct (visit_run title w_in w_out s Ht Hs) as (s' & -> & Hs').
  cbn [fst snd map]. rewrite (IH s' Hs'). reflexivity.
Qed.

Lemma every_visit_fetches_witness :
  let w := {| network := fun _ =>
                Resolved {| status := 200; json_body := Json (ReviewArray []) |};
              confirm := fun _ => true |} in
  snd (session (flat_map visit [ ("Alien", w, w); ("Brazil", w, w); ("Alien", w, w) ]) initial)
  = [ GET "/api/reviews/Alien"; GET "/api/reviews/Brazil"; GET "/api/reviews/Alien" ].
Proof.
  intros w.
  refine (every_visit_fetches [ ("Alien", w, w); ("Brazil", w, w); ("Alien", w, w) ]
            initial _ eq_refl).
  do 3 (apply Forall_cons; [split; [discriminate | reflexivity]|]). apply Forall_nil.
Defined.

(** X3. A card whose title is the empty string selects it without any
    request, and the page stays in the search view: the form is shown and
    the review section is not. *)
Theorem select_empty_title (w : world) (s : state) :
  dispatch (MovieClick "") w s = (set_reviewText "" (set_selected (Some "") s), [])
  /\ forall v, render (fst (dispatch (MovieClick "") w s)) = inr v ->
       v_form v <> None /\ v_reviews v = None.
Proof.
  assert (H : dispatch (MovieClick "") w s
              = (set_reviewText "" (set_selected (Some "") s), [])).
  { unfold dispatch. cbn [handler]. unfold selectMovie. cbn.
    destruct (same_selected (selected s) (Some "")); reflexivity. }
  split; [exact H|]. rewrite H. cbn [fst]. intros v.
  unfold render. cbn [selected set_reviewText set_selected JS.truthy_opt JS.truthy
                        String.eqb negb].
  destruct (render_cards _); [discriminate|].
  intros [= <-]. cbn. split; [discriminate | reflexivity].
Qed.

(** *** No exception escapes, nothing is retried *)

Ltac answer_cases :=
  repeat match goal with
         | |- context [network ?w ?r] =>
             lazymatch r with
             | context [match _ with _ => _ end] => fail
             | _ => destruct (network w r) as [?res|?m]; cbn
             end
         | |- context [json_body ?r] => destruct (json_body r); cbn
         | |- context [ok ?r] => destruct (ok r); cbn
         | |- context [Z.eqb (status ?r) 204] => destruct (Z.eqb (status r) 204); cbn
         end.

Lemma handler_returns (e : event) (w : world) (s : state) :
  fst (fst (exec (handler e s) w s)) = Returned tt.
Proof.
  destruct e as [v| |p|title| |v| |id]; cbn [handler]; try reflexivity.
  - unfold handleSearch. destruct (JS.truthy (JS.trim (keyword s))); [|reflexivity].
    cbn [negb].
    change (exec _ w s) with
      (exec (fetchMovies (keyword s) 1) w (set_selected None (set_error "" s))).
    rewrite exec_fetchMovies. reflexivity.
  - rewrite exec_fetchMovies. reflexivity.
  - unfold submitReview. destruct (JS.truthy (JS.trim (reviewText s))); [|reflexivity].
    cbn. unfold res_json. answer_cases; reflexivity.
  - unfold deleteReview. cbn. destruct (confirm w "Delete this review?"); [|reflexivity].
    cbn. unfold res_json. answer_cases; reflexivity.
Qed.

Lemma effect_returns (w : world) (s : state) :
  fst (fst (exec (effect s) w s)) = Returned tt.
Proof.
  unfold effect. destruct (JS.truthy_opt (selected s)); [|reflexivity].
  rewrite exec_fetchReviews. reflexivity.
Qed.

Lemma post_not_reviews (s : state) : post_request s <> reviews_request s.
Proof. unfold post_request, reviews_request, GET. intros H. discriminate H. Qed.

(** The requests of one action: none, one, or two different ones. *)
Lemma dispatch_requests (e : event) (w : world) (s : state) :
  exists t, snd (dispatch e w s) = t
    /\ (t = [] \/ (exists r, t = [r]) \/ (exists r1 r2, t = [r1; r2] /\ r1 <> r2)).
Proof.
  eexists. split; [reflexivity|].
  destruct e as [v| |p|title| |v| |id].
  - left.
    rewrite (dispatch_no_effect (KeywordInput v) w s (set_keyword v s) (Returned tt) []);
      reflexivity.
  - fold (SearchForm w s).
    destruct (String.eqb_spec (JS.trim (keyword s)) "") as [E|E].
    + left. rewrite SearchForm_blank; [reflexivity | apply truthy_empty, E].
    + right. left. rewrite (SearchForm_run w s E). eexists. reflexivity.
  - fold (ChangePage p w s). right. left. rewrite ChangePage_run. eexists. reflexivity.
  - unfold dispatch. cbn [handler]. unfold selectMovie. cbn.
    destruct (same_selected (selected s) (Some title)); [left; reflexivity|].
    unfold effect. cbn [selected set_reviewText set_selected].
    destruct (JS.truthy_opt (Some title)); [|left; reflexivity].
    rewrite exec_fetchReviews. right. left. eexists. reflexivity.
  - fold (Back w s). rewrite Back_run. left. reflexivity.
  - left.
    rewrite (dispatch_no_effect (ReviewInput v) w s (set_reviewText v s) (Returned tt) []);
      reflexivity.
  - fold (SubmitReview w s).
    destruct (String.eqb_spec (JS.trim (reviewText s)) "") as [E|E].
    + left. unfold SubmitReview.
      rewrite (dispatch_no_effect SubmitClick w s s (Returned tt) []); try reflexivity.
      cbn [handler]. unfold submitReview. rewrite (truthy_empty _ E). reflexivity.
    + right. rewrite (SubmitReview_run w s E).
      destruct (network w (post_request s)) as [res|m]; [destruct (ok res)|].
      * right. exists (post_request s), (reviews_request s).
        split; [reflexivity | apply post_not_reviews].
      * left. eexists. reflexivity.
      * left. eexists. reflexivity.
  - fold (DeleteReview id w s).
    destruct (confirm w "Delete this review?") eqn:Hc.
    + right. rewrite (DeleteReview_run id w s Hc).
      destruct (network w (delete_request id)) as [res|m];
        [destruct (status res =? 204)|].
      * right. exists (delete_request id), (reviews_request s).
        split; [reflexivity|]. intros H. symmetry in H.
        exact (reviews_request_not_delete id s H).
      * left. eexists. reflexivity.
      * left. eexists. reflexivity.
    + left. rewrite (DeleteReview_declined id w s Hc). reflexivity.
Qed.

(** X4. Whatever the backend answers, no handler and no run of the
    effect hook ends with an uncaught exception, and one action issues at
    most two requests, never the same one twice. *)
Theorem actions_end_quietly (e : event) (w : world) (s : state) :
  fst (fst (exec (handler e s) w s)) = Returned tt
  /\ fst (fst (exec (effect s) w s)) = Returned tt
  /\ (List.length (snd (dispatch e w s)) <= 2)%nat
  /\ NoDup (snd (dispatch e w s)).
Proof.
  split; [apply handler_returns|]. split; [apply effect_returns|].
  destruct (dispatch_requests e w s) as (t & -> & [->|[(r & ->)|(r1 & r2 & -> & Hr)]]).
  - split; [cbn; lia | constructor].
  - split; [cbn; lia | repeat constructor; intros []].
  - split; [cbn; lia|]. constructor; [|repeat constructor; intros []].
    intros [H|[]]. apply Hr. symmetry. exact H.
Qed.

(** *** What the page shows *)

(** X5. Whenever the page renders, it shows exactly one of the two
    views, by the truthiness of the selected title alone: without one the
    search form and the cards and no review section, with one the review
    section and neither form, cards nor pagination.  The error line is
    there exactly when the message is non-empty, in both views. *)
Theorem render_one_view (s : state) (v : view) :
  render s = inr v ->
  (JS.truthy_opt (selected s) = false ->
     v_form v <> None /\ v_cards v <> None /\ v_reviews v = None
     /\ v_pagination v = renderPagination s)
  /\ (JS.truthy_opt (selected s) = true ->
       v_form v = None /\ v_cards v = None /\ v_pagination v = None
       /\ v_reviews v <> None)
  /\ (v_error v = None <-> error s = "")
  /\ (forall m, v_error v = Some m -> m = error s).
Proof.
  unfold render. intros H.
  assert (He : forall x : string,
            (if JS.truthy x then Some x else None) = None <-> x = "").
  { intros x. unfold JS.truthy. destruct (String.eqb_spec x ""); cbn.
    - split; [intros _; assumption | reflexivity].
    - split; [discriminate | contradiction]. }
  assert (Hm : forall x m : string,
            (if JS.truthy x then Some x else None) = Some m -> m = x).
  { intros x m. destruct (JS.truthy x); [intros [= <-]; reflexivity | discriminate]. }
  destruct (JS.truthy_opt (selected s)); cbn [negb] in H.
  - destruct (render_listing s); [discriminate|]. injection H as <-. cbn.
    split; [discriminate|]. split; [|split; [apply He | apply Hm]].
    intros _. repeat split. discriminate.
  - destruct (render_cards s); [discriminate|]. injection H as <-. cbn.
    split; [|split; [discriminate | split; [apply He | apply Hm]]].
    intros _. repeat split; discriminate.
Qed.

Lemma render_one_view_witness :
  exists v, render initial = inr v /\ v_form v <> None /\ v_reviews v = None.
Proof.
  eexists. split; [reflexivity|].
  pose proof (proj1 (render_one_view initial _ eq_refl) eq_refl) as H.
  split; [exact (proj1 H) | exact (proj1 (proj2 (proj2 H)))].
Defined.

Lemma render_cards_of (s : state) (v : view) (cs : list card) :
  render s = inr v -> v_cards v = Some cs ->
  exists ms, movies s = Some ms /\ cs = map render_card ms.
Proof.
  unfold render. destruct (JS.truthy_opt (selected s)); cbn [negb].
  - destruct (render_listing s); [discriminate|]. intros [= <-]. discriminate.
  - unfold render_cards. destruct (movies s) as [ms|]; [|discriminate].
    intros [= <-]. cbn. intros [= <-]. exists ms. split; reflexivity.
Qed.

(** X6. The cards are the movies of the state, one each and in order,
    keyed by [imdbID].  No card ever has the source "N/A": a poster equal
    to "N/A" gives the placeholder image, any other poster is used as it
    is. *)
Theorem cards_show_posters (s : state) (v : view) (cs : list card) :
  render s = inr v -> v_cards v = Some cs ->
  exists ms, movies s = Some ms
    /\ map card_key cs = map Movie.imdbID ms
    /\ Forall2 (fun m c =>
                  img_src c <> "N/A"
                  /\ (Movie.Poster m <> "N/A" -> img_src c = Movie.Poster m)
                  /\ (Movie.Poster m = "N/A" ->
                      img_src c = "https://via.placeholder.com/100x150?text=No+Image")
                  /\ card_onClick c = handler (MovieClick (Movie.Title m)) s)
               ms cs.
Proof.
  intros Hr Hc. destruct (render_cards_of s v cs Hr Hc) as (ms & Hm & ->).
  exists ms. split; [exact Hm|]. split.
  - rewrite map_map. reflexivity.
  - clear. induction ms as [|m ms IH]; constructor; [|exact IH].
    cbn [render_card img_src card_onClick]. unfold poster_src.
    destruct (String.eqb_spec (Movie.Poster m) "N/A") as [E|E]; cbn [negb].
    + repeat split; try reflexivity; [discriminate | contradiction].
    + repeat split; try reflexivity; [exact E | contradiction].
Qed.

Lemma cards_show_posters_witness :
  let s := set_movies (Some [ {| Movie.imdbID := "tt1"; Movie.Title := "Batman";
                                 Movie.Year := "1989"; Movie.Poster := "N/A" |} ]) initial in
  exists v cs, render s = inr v /\ v_cards v = Some cs
    /\ map card_key cs = ["tt1"].
Proof.
  intros s. eexists. eexists. split; [reflexivity|]. split; [reflexivity|].
  destruct (cards_show_posters s _ _ eq_refl eq_refl) as (ms & Hm & Hk & _).
  injection Hm as <-. exact Hk.
Defined.

(** *** When the page can be rendered *)

Lemma renderable_renders (s : state) : renderable s -> exists v, render s = inr v.
Proof.
  intros [Hm [l Hl]]. unfold render, render_cards, render_listing. rewrite Hl.
  destruct (movies s) as [ms|]; [|contradiction].
  destruct (JS.truthy_opt (selected s)); cbn [negb];
    [destruct (Z.of_nat (List.length l) =? 0)|]; eexists; reflexivity.
Qed.

Lemma renderable_reviews_loaded (title : option string) (w : world) (s : state) :
  keeps_shapes w -> renderable s ->
  renderable (reviews_loaded (network w (GET (reviews_url title))) s).
Proof.
  intros [_ Hw] [Hm Hl]. unfold reviews_loaded.
  destruct (network w _) as [res|m] eqn:Hn; [|split; assumption].
  destruct (json_body res) as [data|m] eqn:Hj; [|split; assumption].
  destruct (Hw title res data Hn Hj) as [l ->].
  split; [exact Hm | exists l; reflexivity].
Qed.

Lemma renderable_fetchMovies (q : string) (p : Z) (w : world) (s : state) :
  keeps_shapes w -> renderable s ->
  renderable (snd (fst (exec (fetchMovies q p) w s))).
Proof.
  intros [Hw _] [Hm Hl]. rewrite exec_fetchMovies. cbn [fst snd].
  destruct (network w _) as [res|m] eqn:Hn; [|split; [discriminate | assumption]].
  destruct (json_body res) as [data|m] eqn:Hj; [|split; [discriminate | assumption]].
  destruct (ok res) eqn:Hok; [|split; [discriminate | assumption]].
  destruct (Hw q p res data Hn Hok Hj) as (rs & n & ->).
  split; [discriminate | assumption].
Qed.

Lemma renderable_dispatch (e : event) (w : world) (s : state) :
  keeps_shapes w -> renderable s -> renderable (fst (dispatch e w s)).
Proof.
  intros Hw Hs.
  destruct e as [v| |p|title| |v| |id].
  - rewrite (dispatch_no_effect (KeywordInput v) w s (set_keyword v s) (Returned tt) []);
      try reflexivity. exact Hs.
  - fold (SearchForm w s).
    destruct (String.eqb_spec (JS.trim (keyword s)) "") as [E|E].
    + rewrite SearchForm_blank; [exact Hs | apply truthy_empty, E].
    + rewrite (SearchForm_run w s E). cbn [fst].
      apply renderable_fetchMovies; [exact Hw | exact Hs].
  - fold (ChangePage p w s). rewrite ChangePage_run. cbn [fst].
    apply renderable_fetchMovies; assumption.
  - unfold dispatch. cbn [handler]. unfold selectMovie. cbn.
    destruct (same_selected (selected s) (Some title)); [exact Hs|].
    unfold effect. cbn [selected set_reviewText set_selected].
    destruct (JS.truthy_opt (Some title)); [|exact Hs].
    rewrite exec_fetchReviews. cbn [fst].
    apply renderable_reviews_loaded; [exact Hw | exact Hs].
  - fold (Back w s). rewrite Back_run. exact Hs.
  - rewrite (dispatch_no_effect (ReviewInput v) w s (set_reviewText v s) (Returned tt) []);
      try reflexivity. exact Hs.
  - fold (SubmitReview w s).
    destruct (String.eqb_spec (JS.trim (reviewText s)) "") as [E|E].
    + unfold SubmitReview.
      rewrite (dispatch_no_effect SubmitClick w s s (Returned tt) []); try reflexivity;
        [exact Hs|].
      cbn [handler]. unfold submitReview. rewrite (truthy_empty _ E). reflexivity.
    + rewrite (SubmitReview_run w s E).
      destruct (network w (post_request s)) as [res|m]; [destruct (ok res)|];
        cbn [fst]; try exact Hs.
      apply (renderable_reviews_loaded (selected s) w (set_reviewText "" s) Hw Hs).
  - fold (DeleteReview id w s).
    destruct (confirm w "Delete this review?") eqn:Hc.
    + rewrite (DeleteReview_run id w s Hc).
      destruct (network w (delete_request id)) as [res|m];
        [destruct (status res =? 204)|]; cbn [fst]; try exact Hs.
      apply (renderable_reviews_loaded (selected s) w s Hw Hs).
    + rewrite (DeleteReview_declined id w s Hc). exact Hs.
Qed.

(** X7. While the backend keeps to the shapes of its endpoints, the page
    never fails to render: from a state with a movie list and a review
    array (the initial one is such), any session leads to a state of that
    kind again, and the render of it returns a view. *)
Theorem honest_backend_renders (l : list (event * world)) (s : state) :
  Forall (fun ew => keeps_shapes (snd ew)) l ->
  renderable s ->
  renderable (fst (session l s)) /\ exists v, render (fst (session l s)) = inr v.
Proof.
  intros Hl Hs.
  assert (H : renderable (fst (session l s))).
  { revert s Hs. induction Hl as [|[e w] l Hw _ IH]; intros s Hs; [exact Hs|].
    cbn [session]. pose proof (renderable_dispatch e w s Hw Hs) as H1.
    destruct (dispatch e w s) as [s1 t1]. cbn [fst] in H1.
    specialize (IH s1 H1). destruct (session l s1) as [s2 t2]. exact IH. }
  split; [exact H | apply renderable_renders, H].
Qed.

Lemma initial_renderable : renderable initial.
Proof. split; [discriminate | exists []; reflexivity]. Qed.

Lemma honest_backend_renders_witness :
  let w := {| network := fun r =>
                if String.prefix "/api/search" (url r)
                then Resolved {| status := 200;
                                 json_body := Json (SearchPage
                                   [ {| Movie.imdbID := "tt1"; Movie.Title := "Batman";
                                        Movie.Year := "1989"; Movie.Poster := "N/A" |} ] 15) |}
                else Resolved {| status := 200;
                                 json_body := Json (ReviewArray
                                   [ {| Review.id := 1; Review.reviewText := "Great film" |} ]) |};
              confirm := fun _ => true |} in
  exists v, render (fst (session [ (KeywordInput "batman", w); (SearchSubmit, w);
                                   (MovieClick "Batman", w) ] initial)) = inr v.
Proof.
  intros w.
  assert (Hw : keeps_shapes w).
  { split.
    - intros q p res data Hn _ Hj. cbn in Hn. injection Hn as <-.
      cbn in Hj. injection Hj as <-. eexists. eexists. reflexivity.
    - intros title res data Hn Hj. cbn in Hn. injection Hn as <-.
      cbn in Hj. injection Hj as <-. eexists. reflexivity. }
  refine (proj2 (honest_backend_renders
                   [ (KeywordInput "batman", w); (SearchSubmit, w);
                     (MovieClick "Batman", w) ] initial _ initial_renderable)).
  do 3 (apply Forall_cons; [exact Hw|]). apply Forall_nil.
Defined.

(** X8. The review view cannot show an object.  When the reviews of a
    newly selected title (non-empty, well formed) are answered with one
    of the object bodies [{ error }], [{}] or [{ results, totalResults }],
    whatever the status, the list in the state is that object and the
    next render throws at [reviews.map]. *)
Theorem review_view_breaks_on_object (title : string) (w : world) (s : state)
    (res : response) (data : json) :
  title <> "" -> JS.isWellFormed title = true -> selected s <> Some title ->
  network w (GET (reviews_url (Some title))) = Resolved res ->
  json_body res = Json data ->
  is_object data = true ->
  reviews (fst (dispatch (MovieClick title) w s)) = data
  /\ error (fst (dispatch (MovieClick title) w s)) = error s
  /\ render (fst (dispatch (MovieClick title) w s)) = inl reviews_map_not_a_function.
Proof.
  intros Ht _ Hs Hn Hj Hd. rewrite (MovieClick_run title w s Ht Hs). cbn [fst].
  unfold reviews_loaded. rewrite Hn, Hj. split; [reflexivity|]. split; [reflexivity|].
  unfold render, render_listing.
  cbn [selected reviews set_reviews set_reviewText set_selected JS.truthy_opt].
  rewrite (truthy_nonempty _ Ht). cbn [negb].
  destruct data as [rs n|e|l|]; try reflexivity. discriminate Hd.
Qed.

Lemma review_view_breaks_on_object_witness :
  let w := {| network := fun _ =>
                Resolved {| status := 500;
                            json_body := Json (ErrorObject "Database error") |};
              confirm := fun _ => true |} in
  reviews (fst (dispatch (MovieClick "Batman") w initial)) = ErrorObject "Database error"
  /\ render (fst (dispatch (MovieClick "Batman") w initial))
     = inl reviews_map_not_a_function.
Proof.
  intros w.
  destruct (review_view_breaks_on_object "Batman" w initial _ _
              ltac:(discriminate) eq_refl ltac:(discriminate) eq_refl eq_refl eq_refl)
    as (Hr & _ & Hv).
  split; [exact Hr | exact Hv].
Defined.

(** X9. The search view cannot show a 2xx answer whose body is one of
    the other endpoint shapes ([{ error }], [{}] or an array of reviews):
    such a body has no [results], so with no title selected the movie
    list is undefined after a page click or a submitted form, and the
    next render throws at [movies.map]. *)
Theorem search_view_breaks_without_results (p : Z) (w : world) (s : state)
    (res : response) (data : json) :
  JS.truthy_opt (selected s) = false ->
  JS.isWellFormed (keyword s) = true -> JS.isSafeInteger p = true ->
  network w (GET (search_url (keyword s) p)) = Resolved res ->
  200 <= status res <= 299 -> json_body res = Json data ->
  (exists e, data = ErrorObject e) \/ data = EmptyObject
    \/ (exists l, data = ReviewArray l) ->
  movies (fst (ChangePage p w s)) = None
  /\ render (fst (ChangePage p w s)) = inl movies_map_of_undefined
  /\ (p = 1 -> JS.trim (keyword s) <> "" ->
      movies (fst (SearchForm w s)) = None
      /\ render (fst (SearchForm w s)) = inl movies_map_of_undefined).
Proof.
  intros Hsel _ _ Hn Hok Hj Hshape. by_status Hok.
  assert (Hd : data_results data = None).
  { destruct Hshape as [[e ->] | [-> | [l ->]]]; reflexivity. }
  assert (Hc : fst (ChangePage p w s)
               = set_page p (set_totalResults (data_totalResults data)
                   (set_movies None
                      (set_totalResults (Some 0) (set_movies (Some []) (set_error "" s)))))).
  { rewrite ChangePage_run, exec_fetchMovies. cbn [fst snd].
    rewrite Hn, Hj, Hok, Hd. reflexivity. }
  assert (Hr : render (fst (ChangePage p w s)) = inl movies_map_of_undefined).
  { rewrite Hc. unfold render, render_cards.
    cbn [selected movies set_page set_totalResults set_movies set_error].
    rewrite Hsel. reflexivity. }
  split; [rewrite Hc; reflexivity|]. split; [exact Hr|].
  intros -> Hk. rewrite (SearchForm_as_page_1 w s Hk). cbn [fst]. rewrite Hc.
  split; reflexivity.
Qed.

Lemma search_view_breaks_without_results_witness :
  let w := {| network := fun _ =>
                Resolved {| status := 200; json_body := Json (ErrorObject "Movie not found!") |};
              confirm := fun _ => true |} in
  render (fst (ChangePage 2 w (set_keyword "zzzz" initial))) = inl movies_map_of_undefined.
Proof.
  intros w.
  refine (proj1 (proj2 (search_view_breaks_without_results 2 w (set_keyword "zzzz" initial)
                  _ _ eq_refl eq_refl eq_refl eq_refl ltac:(cbn; lia) eq_refl _))).
  left. eexists. reflexivity.
Defined.

(** *** The addresses requested *)

Lemma append_empty_r (x : string) : x ++ "" = x.
Proof. induction x as [|a x IH]; cbn; [reflexivity | rewrite IH; reflexivity]. Qed.

Lemma append_assoc (x y z : string) : (x ++ y) ++ z = x ++ (y ++ z).
Proof. induction x as [|a x IH]; cbn; [reflexivity | rewrite IH; reflexivity]. Qed.

Lemma append_cancel_l (x a b : string) : x ++ a = x ++ b -> a = b.
Proof.
  induction x as [|c x IH]; cbn; [trivial|]. intros [= H]. exact (IH H).
Qed.

Lemma concat_empty_cons (x : string) (l : list string) :
  String.concat "" (x :: l) = x ++ String.concat "" l.
Proof. destruct l; cbn; [rewrite append_empty_r|]; reflexivity. Qed.

Lemma encodeURIComponent_bytes (x : string) :
  JS.encodeURIComponent x = String.concat "" (map encode_byte (JS.bytes x)).
Proof. reflexivity. Qed.

Lemma bytes_bounded (x : string) : Forall (fun c => (c < 256)%N) (JS.bytes x).
Proof.
  unfold JS.bytes. apply Forall_map, Forall_forall. intros a _. apply N_ascii_bounded.
Qed.

Lemma bytes_inj (x y : string) : JS.bytes x = JS.bytes y -> x = y.
Proof.
  unfold JS.bytes. intros H.
  rewrite <- (string_of_list_ascii_of_string x), <- (string_of_list_ascii_of_string y).
  f_equal. revert H. generalize (list_ascii_of_string x) (list_ascii_of_string y).
  induction l as [|a l IH]; intros [|b l']; cbn; try discriminate; [reflexivity|].
  intros [= Hab Hl]. f_equal; [|exact (IH l' Hl)].
  rewrite <- (ascii_N_embedding a), <- (ascii_N_embedding b), Hab. reflexivity.
Qed.

Lemma hexDigit_char (k : N) :
  (k < 16)%N ->
  JS.hexDigit k = String (ascii_of_N (if (k <? 10)%N then 48 + k else 55 + k)%N) "".
Proof.
  intros H. destruct k as [|p]; [reflexivity|].
  do 4 (destruct p as [p|p|]; try reflexivity; try lia).
Qed.

Lemma hexDigit_inj (j k : N) :
  (j < 16)%N -> (k < 16)%N -> JS.hexDigit j = JS.hexDigit k -> j = k.
Proof.
  intros Hj Hk. rewrite (hexDigit_char j Hj), (hexDigit_char k Hk). intros H.
  apply (f_equal (fun x => match x with
                           | String a _ => N_of_ascii a
                           | EmptyString => 0%N
                           end)) in H.
  cbv beta iota in H.
  rewrite !N_ascii_embedding in H
    by (destruct (N.ltb_spec j 10), (N.ltb_spec k 10); lia).
  destruct (N.ltb_spec j 10), (N.ltb_spec k 10); lia.
Qed.

Lemma hexDigit_head (k : N) :
  (k < 16)%N -> exists a, JS.hexDigit k = String a "".
Proof. intros H. rewrite (hexDigit_char k H). eexists. reflexivity. Qed.

(** One byte's output can be read back from the front of a text. *)
Lemma encode_byte_cancel (c c' : N) (t t' : string) :
  (c < 256)%N -> (c' < 256)%N ->
  encode_byte c ++ t = encode_byte c' ++ t' -> c = c' /\ t = t'.
Proof.
  intros Hc Hc'. unfold encode_byte, JS.percent.
  assert (Hdiv : forall x, (x < 256)%N -> (x / 16 < 16)%N /\ (x mod 16 < 16)%N).
  { intros x Hx. split; [apply N.Div0.div_lt_upper_bound; lia | apply N.mod_lt; lia]. }
  destruct (Hdiv c Hc) as [Hh Hl], (Hdiv c' Hc') as [Hh' Hl'].
  destruct (hexDigit_head _ Hh) as [a1 E1], (hexDigit_head _ Hl) as [a2 E2],
           (hexDigit_head _ Hh') as [b1 F1], (hexDigit_head _ Hl') as [b2 F2].
  destruct (JS.unreserved c) eqn:Uc, (JS.unreserved c') eqn:Uc'.
  - cbn. intros [= Ha Ht]. split; [|exact Ht].
    apply (f_equal N_of_ascii) in Ha. rewrite !N_ascii_embedding in Ha by assumption.
    exact Ha.
  - cbn. intros [= Ha _]. exfalso.
    apply (f_equal N_of_ascii) in Ha. rewrite N_ascii_embedding in Ha by assumption.
    subst c. discriminate Uc.
  - cbn. intros [= Ha _]. exfalso.
    apply (f_equal N_of_ascii) in Ha. rewrite N_ascii_embedding in Ha by assumption.
    subst c'. discriminate Uc'.
  - pose proof E1 as E1'. pose proof E2 as E2'. pose proof F1 as F1'. pose proof F2 as F2'.
    rewrite E1, E2, F1, F2. cbn. intros [= H1 H2 Ht]. split; [|exact Ht].
    subst b1 b2. rewrite <- F1' in E1'. rewrite <- F2' in E2'.
    apply hexDigit_inj in E1'; [|assumption..].
    apply hexDigit_inj in E2'; [|assumption..].
    rewrite (N.div_mod c 16), (N.div_mod c' 16) by lia. congruence.
Qed.

Lemma encode_byte_head (c : N) :
  (c < 256)%N ->
  exists a r, encode_byte c = String a r
    /\ (a = "%"%char \/ JS.unreserved (N_of_ascii a) = true).
Proof.
  intros Hc. unfold encode_byte, JS.percent.
  destruct (JS.unreserved c) eqn:U.
  - eexists. eexists. split; [reflexivity|]. right.
    rewrite N_ascii_embedding by assumption. exact U.
  - eexists. eexists. split; [reflexivity|]. left. reflexivity.
Qed.

Lemma ends_encoding_not_byte (c : N) (r t : string) :
  (c < 256)%N -> ends_encoding t -> t <> encode_byte c ++ r.
Proof.
  intros Hc Ht E. destruct (encode_byte_head c Hc) as (a & r' & Ea & Ha).
  rewrite Ea in E. cbn in E. subst t. cbn in Ht. destruct Ht as [H1 H2].
  destruct Ha as [->|Ha]; [apply H1; reflexivity | congruence].
Qed.

(** The encoded text can be read back, up to where it ends. *)
Lemma encode_bytes_cancel (l l' : list N) (t t' : string) :
  Forall (fun c => (c < 256)%N) l -> Forall (fun c => (c < 256)%N) l' ->
  ends_encoding t -> ends_encoding t' ->
  String.concat "" (map encode_byte l) ++ t
  = String.concat "" (map encode_byte l') ++ t' ->
  l = l' /\ t = t'.
Proof.
  intros Hl. revert l'. induction Hl as [|c l Hc _ IH]; intros l' Hl' Ht Ht' E.
  - destruct Hl' as [|c' l' Hc' _]; [split; [reflexivity | exact E]|].
    exfalso. cbn [map] in E. rewrite concat_empty_cons, append_assoc in E.
    exact (ends_encoding_not_byte c' _ t Hc' Ht E).
  - destruct Hl' as [|c' l' Hc' Hl'].
    + exfalso. cbn [map] in E. rewrite concat_empty_cons, append_assoc in E.
      symmetry in E. exact (ends_encoding_not_byte c _ t' Hc Ht' E).
    + cbn [map] in E. rewrite !concat_empty_cons, !append_assoc in E.
      destruct (encode_byte_cancel c c' _ _ Hc Hc' E) as [-> E'].
      destruct (IH l' Hl' Ht Ht' E') as [-> ->]. split; reflexivity.
Qed.

Lemma encodeURIComponent_cancel (x y t t' : string) :
  ends_encoding t -> ends_encoding t' ->
  JS.encodeURIComponent x ++ t = JS.encodeURIComponent y ++ t' ->
  x = y /\ t = t'.
Proof.
  intros Ht Ht' E. rewrite !encodeURIComponent_bytes in E.
  destruct (encode_bytes_cancel _ _ t t' (bytes_bounded x) (bytes_bounded y) Ht Ht' E)
    as [Hb ->].
  split; [exact (bytes_inj x y Hb) | reflexivity].
Qed.

Lemma toString_num_inj (m n : Z) : JS.toString_num m = JS.toString_num n -> m = n.
Proof.
  unfold JS.toString_num. intros H. apply DecimalZ.to_int_inj.
  assert (Hz : forall z, Z.to_int z <> Decimal.Pos Decimal.Nil
                         /\ Z.to_int z <> Decimal.Neg Decimal.Nil).
  { intros [|p|p]; cbn; split; try discriminate;
      intros [= E]; exact (DecimalPos.Unsigned.to_uint_nonnil p E). }
  pose proof (NilZero.isi (Z.to_int m) (proj1 (Hz m)) (proj2 (Hz m))) as Hm.
  pose proof (NilZero.isi (Z.to_int n) (proj1 (Hz n)) (proj2 (Hz n))) as Hn.
  rewrite H in Hm. congruence.
Qed.

Lemma search_url_cancel (q q' : string) (p p' : Z) :
  search_url q p = search_url q' p' -> q = q' /\ p = p'.
Proof.
  unfold search_url. intros H. apply append_cancel_l in H.
  apply encodeURIComponent_cancel in H;
    [|cbn; split; [discriminate | reflexivity]..].
  destruct H as [-> H]. split; [reflexivity|].
  apply append_cancel_l in H. exact (toString_num_inj p p' H).
Qed.

(** X10. The address of a search tells the keyword and the page apart:
    two searches are sent to the same URL only if they have the same
    keyword, byte for byte, and the same page number.  No keyword can
    pass for another one or carry a page parameter of its own. *)
Theorem search_url_inj (q q' : string) (p p' : Z) :
  search_url q p = search_url q' p' <-> q = q' /\ p = p'.
Proof.
  split; [apply search_url_cancel | intros [-> ->]; reflexivity].
Qed.

(** X11. The review addresses tell titles and ids apart: the listings of
    two titles have the same URL only if the titles are equal, and so for
    the URLs of two review ids that are safe integers. *)
Theorem review_urls_inj (title title' : string) (id id' : Z) :
  (reviews_url (Some title) = reviews_url (Some title') <-> title = title')
  /\ (JS.isSafeInteger id = true -> JS.isSafeInteger id' = true ->
      (review_url id = review_url id' <-> id = id')).
Proof.
  split; [|intros _ _]; (split; [|intros ->; reflexivity]).
  - unfold reviews_url. cbn [JS.toString_opt]. intros H. apply append_cancel_l in H.
    rewrite <- (append_empty_r (JS.encodeURIComponent title)),
            <- (append_empty_r (JS.encodeURIComponent title')) in H.
    exact (proj1 (encodeURIComponent_cancel _ _ "" "" I I H)).
  - unfold review_url. intros H. apply append_cancel_l in H.
    exact (toString_num_inj id id' H).
Qed.

Lemma encode_byte_safe (c : N) (a : ascii) :
  (c < 256)%N -> In a (list_ascii_of_string (encode_byte c)) ->
  a = "%"%char \/ JS.unreserved (N_of_ascii a) = true.
Proof.
  intros Hc. unfold encode_byte, JS.percent.
  destruct (JS.unreserved c) eqn:U.
  - cbn. intros [<-|[]]. right. rewrite N_ascii_embedding by assumption. exact U.
  - assert (Hd : forall k, (k < 16)%N ->
              JS.unreserved (N_of_ascii (ascii_of_N (if (k <? 10)%N then 48 + k else 55 + k)%N))
              = true).
    { intros k Hk. destruct k as [|k]; [reflexivity|].
      do 4 (destruct k as [k|k|]; try reflexivity; try lia). }
    rewrite (hexDigit_char (c / 16)), (hexDigit_char (c mod 16))
      by (try apply N.Div0.div_lt_upper_bound; try apply N.mod_lt; lia).
    cbn [append list_ascii_of_string In].
    intros [<-|[<-|[<-|[]]]]; [left; reflexivity | right; apply Hd..].
    + apply N.Div0.div_lt_upper_bound; lia.
    + apply N.mod_lt; lia.
Qed.

Lemma list_ascii_of_append (x y : string) :
  list_ascii_of_string (x ++ y) = (list_ascii_of_string x ++ list_ascii_of_string y)%list.
Proof. induction x as [|a x IH]; cbn; [reflexivity | rewrite IH; reflexivity]. Qed.

Lemma encoded_text_is_safe (x : string) (a : ascii) :
  In a (list_ascii_of_string (JS.encodeURIComponent x)) ->
  (a = "%"%char \/ JS.unreserved (N_of_ascii a) = true)
  /\ ~ In a (list_ascii_of_string "&=?/# ").
Proof.
  intros Hin.
  assert (H : a = "%"%char \/ JS.unreserved (N_of_ascii a) = true).
  { rewrite encodeURIComponent_bytes in Hin.
    pose proof (bytes_bounded x) as Hb. revert Hin.
    induction Hb as [|c l Hc _ IH]; [intros []|].
    cbn [map]. rewrite concat_empty_cons, list_ascii_of_append.
    intros Hin. apply in_app_or in Hin. destruct Hin as [Hin|Hin].
    - exact (encode_byte_safe c a Hc Hin).
    - exact (IH Hin). }
  split; [exact H|].
  cbn [list_ascii_of_string In].
  intros [<-|[<-|[<-|[<-|[<-|[<-|[]]]]]]]; destruct H as [H|H]; discriminate H.
Qed.

(** X12. A keyword or title cannot change the shape of the address it
    is put in: the search URL is the fixed prefix, an encoded keyword,
    "&page=" and the page number, the review URL the fixed prefix and an
    encoded title, and the encoded part has none of the characters
    & = ? / # or space, whatever was typed. *)
Theorem addresses_keep_their_shape (q title : string) (p : Z) :
  exists e e',
    search_url q p = "/api/search?q=" ++ e ++ "&page=" ++ JS.toString_num p
    /\ reviews_url (Some title) = "/api/reviews/" ++ e'
    /\ forall a, In a (list_ascii_of_string e) \/ In a (list_ascii_of_string e') ->
                 ~ In a (list_ascii_of_string "&=?/# ").
Proof.
  exists (JS.encodeURIComponent q), (JS.encodeURIComponent title).
  split; [reflexivity|]. split; [reflexivity|].
  intros a [H|H]; exact (proj2 (encoded_text_is_safe _ a H)).
Qed.

(** *** The pagination *)

Lemma render_pagination_of (s : state) (v : view) (bs : list button) :
  render s = inr v -> v_pagination v = Some bs ->
  JS.truthy_opt (selected s) = false /\ renderPagination s = Some bs.
Proof.
  unfold render. destruct (JS.truthy_opt (selected s)); cbn [negb].
  - destruct (render_listing s); [discriminate|]. intros [= <-]. discriminate.
  - destruct (render_cards s); [discriminate|]. intros [= <-]. cbn.
    intros H. split; [reflexivity | exact H].
Qed.

Lemma filter_unique_key {A : Type} (f : A -> Z) (x : Z) (l : list A) :
  NoDup (map f l) ->
  (List.length (filter (fun a => Z.eqb (f a) x) l) <= 1)%nat.
Proof.
  induction l as [|a l IH]; cbn; [lia|].
  intros Hnd. inversion Hnd as [|? ? Hnotin Hnd']; subst.
  destruct (Z.eqb_spec (f a) x) as [E|E]; [|exact (IH Hnd')].
  cbn. assert (Hnone : filter (fun a0 => Z.eqb (f a0) x) l = []).
  { destruct (filter (fun a0 => Z.eqb (f a0) x) l) as [|b r] eqn:Hf; [reflexivity|].
    exfalso. assert (Hb : In b (filter (fun a0 => Z.eqb (f a0) x) l))
      by (rewrite Hf; left; reflexivity).
    apply filter_In in Hb. destruct Hb as [Hb Hbx]. apply Z.eqb_eq in Hbx.
    apply Hnotin. rewrite E, <- Hbx. apply in_map. exact Hb. }
  rewrite Hnone. cbn. lia.
Qed.

Lemma seq_keys_NoDup (a n : nat) : NoDup (map Z.of_nat (seq a n)).
Proof.
  pose proof (seq_NoDup n a) as H. induction H as [|x l Hx _ IH]; cbn; constructor.
  - intros Hin. apply in_map_iff in Hin. destruct Hin as (y & Hy & Hin).
    apply Nat2Z.inj in Hy. subst y. exact (Hx Hin).
  - exact IH.
Qed.

(** X13. The pagination, when there is one, has the buttons 1, 2, ... in
    order, two at least; a button is disabled exactly when its number is
    the current page, so at most one is; and each button searches the
    held keyword on its own page. *)
Theorem pagination_buttons_numbered (s : state) (bs : list button) :
  renderPagination s = Some bs ->
  totalResults s <> None ->
  map key bs = map Z.of_nat (seq 1 (List.length bs))
  /\ (2 <= List.length bs)%nat
  /\ (forall b, In b bs ->
        (disabled b = true <-> key b = page s)
        /\ onClick b = fetchMovies (keyword s) (key b))
  /\ (List.length (filter disabled bs) <= 1)%nat.
Proof.
  unfold renderPagination. destruct (totalResults s) as [n|]; [|contradiction].
  destruct (Z.leb_spec (JS.ceil_div n 10) 1) as [Hle|Hgt]; [discriminate|].
  intros [= <-] _.
  set (k := Z.to_nat (JS.ceil_div n 10)).
  assert (Hk : (2 <= k)%nat) by (subst k; lia).
  rewrite length_map, length_seq, map_map. cbn [key].
  split; [reflexivity|]. split; [exact Hk|]. split.
  - intros b Hb. apply in_map_iff in Hb. destruct Hb as (i & <- & _). cbn.
    split; [apply Z.eqb_eq | reflexivity].
  - rewrite (filter_ext_in disabled (fun b => Z.eqb (key b) (page s))).
    + apply filter_unique_key. rewrite map_map. cbn [key]. apply seq_keys_NoDup.
    + intros b Hb. apply in_map_iff in Hb. destruct Hb as (i & <- & _). reflexivity.
Qed.

Lemma pagination_buttons_numbered_witness :
  let s := set_page 2 (set_totalResults (Some 25) (set_keyword "batman" initial)) in
  exists bs, renderPagination s = Some bs /\ map key bs = [1; 2; 3].
Proof.
  intros s. eexists. split; [reflexivity|].
  refine (proj1 (pagination_buttons_numbered s _ eq_refl _)). discriminate.
Defined.

Lemma offered_page (p : Z) (s : state) :
  offered (PageClick p) s = true ->
  exists bs, JS.truthy_opt (selected s) = false /\ renderPagination s = Some bs
    /\ exists b, In b bs /\ key b = p /\ disabled b = false.
Proof.
  unfold offered. destruct (render s) as [e|v] eqn:Hr; [discriminate|].
  destruct (v_pagination v) as [bs|] eqn:Hp; [|discriminate].
  intros H. apply existsb_exists in H. destruct H as (b & Hb & H).
  apply andb_true_iff in H. destruct H as [Hk Hd].
  apply Z.eqb_eq in Hk. apply negb_true_iff in Hd.
  destruct (render_pagination_of s v bs Hr Hp) as [Hs Hbs].
  exists bs. split; [exact Hs|]. split; [exact Hbs|]. exists b. auto.
Qed.

(** X14. A page button the user can click is never the current page and
    always a page that exists: when the page offers the click on [p],
    then [p] is not the current page and 1 <= p <= ceil(total/10). *)
Theorem offered_page_in_range (p : Z) (s : state) :
  offered (PageClick p) s = true ->
  p <> page s
  /\ exists n, totalResults s = Some n /\ 1 <= p <= JS.ceil_div n 10.
Proof.
  intros H. destruct (offered_page p s H) as (bs & _ & Hbs & b & Hb & Hk & Hd).
  unfold renderPagination in Hbs.
  destruct (totalResults s) as [n|]; [|injection Hbs as <-; destruct Hb].
  destruct (JS.ceil_div n 10 <=? 1); [discriminate|]. injection Hbs as <-.
  apply in_map_iff in Hb. destruct Hb as (i & <- & Hi). cbn in Hk, Hd.
  apply in_seq in Hi. subst p. split.
  - apply Z.eqb_neq. exact Hd.
  - exists n. split; [reflexivity | lia].
Qed.

Lemma offered_page_in_range_witness :
  let s := set_page 2 (set_totalResults (Some 25) (set_keyword "batman" initial)) in
  3 <> page s.
Proof.
  intros s. exact (proj1 (offered_page_in_range 3 s eq_refl)).
Defined.

(** The page after an action: the one before, or the one just asked for. *)
Lemma page_after (e : event) (w : world) (s : state) :
  page (fst (dispatch e w s)) = page s
  \/ (exists p, e = PageClick p /\ page (fst (dispatch e w s)) = p)
  \/ (e = SearchSubmit /\ page (fst (dispatch e w s)) = 1).
Proof.
  assert (Hf : forall q p s0, page s0 = page s ->
            page (snd (fst (exec (fetchMovies q p) w s0))) = page s
            \/ page (snd (fst (exec (fetchMovies q p) w s0))) = p).
  { intros q p s0 H0. rewrite exec_fetchMovies. cbn [fst snd].
    destruct (network w _) as [res|m];
      [destruct (json_body res); [destruct (ok res)|]|]; cbn; auto. }
  assert (Hl : forall r s0, page (reviews_loaded r s0) = page s0).
  { intros r s0. unfold reviews_loaded.
    destruct r as [res|m]; [destruct (json_body res)|]; reflexivity. }
  destruct e as [v| |p|title| |v| |id].
  - left.
    rewrite (dispatch_no_effect (KeywordInput v) w s (set_keyword v s) (Returned tt) []);
      reflexivity.
  - fold (SearchForm w s).
    destruct (String.eqb_spec (JS.trim (keyword s)) "") as [E|E].
    + left. rewrite SearchForm_blank; [reflexivity | apply truthy_empty, E].
    + rewrite (SearchForm_run w s E). cbn [fst].
      destruct (Hf (keyword s) 1 (set_selected None (set_error "" s)) eq_refl) as [H|H];
        [left; exact H | right; right; split; [reflexivity | exact H]].
  - fold (ChangePage p w s). rewrite ChangePage_run. cbn [fst].
    destruct (Hf (keyword s) p s eq_refl) as [H|H];
      [left; exact H | right; left; exists p; split; [reflexivity | exact H]].
  - left. unfold dispatch. cbn [handler]. unfold selectMovie. cbn.
    destruct (same_selected (selected s) (Some title)); [reflexivity|].
    unfold effect. cbn [selected set_reviewText set_selected].
    destruct (JS.truthy_opt (Some title)); [|reflexivity].
    rewrite exec_fetchReviews. cbn [fst]. rewrite Hl. reflexivity.
  - left. fold (Back w s). rewrite Back_run. reflexivity.
  - left.
    rewrite (dispatch_no_effect (ReviewInput v) w s (set_reviewText v s) (Returned tt) []);
      reflexivity.
  - left. pose proof (review_action_keeps_search_view SubmitClick w s eq_refl) as H.
    unfold search_view in H. congruence.
  - left. pose proof (review_action_keeps_search_view (DeleteClick id) w s eq_refl) as H.
    unfold search_view in H. congruence.
Qed.

(** X15. The current page stays a positive number: in a session that
    only uses controls the page offers, starting from a state whose page
    is at least 1 (the initial page is 1), the page is at least 1 after
    every action. *)
Theorem page_stays_positive (l : list (event * world)) (s : state) :
  offered_all l s = true -> 1 <= page s -> 1 <= page (fst (session l s)).
Proof.
  revert s. induction l as [|[e w] l IH]; intros s Ho Hp; [exact Hp|].
  cbn [offered_all] in Ho. apply andb_true_iff in Ho. destruct Ho as [He Hl].
  cbn [session].
  assert (H1 : 1 <= page (fst (dispatch e w s))).
  { destruct (page_after e w s) as [H|[(p & -> & H)|[_ H]]]; rewrite H; try lia.
    destruct (offered_page p s He) as (bs & _ & Hbs & b & Hb & Hk & _).
    unfold renderPagination in Hbs.
    destruct (totalResults s) as [n|]; [|injection Hbs as <-; destruct Hb].
    destruct (JS.ceil_div n 10 <=? 1); [discriminate|]. injection Hbs as <-.
    apply in_map_iff in Hb. destruct Hb as (i & <- & Hi). cbn in Hk.
    apply in_seq in Hi. lia. }
  specialize (IH _ Hl H1).
  destruct (dispatch e w s) as [s1 t1]. cbn [fst] in *.
  destruct (session l s1) as [s2 t2]. exact IH.
Qed.

Lemma page_stays_positive_witness :
  let w := {| network := fun _ =>
                Resolved {| status := 200; json_body := Json (SearchPage [] 15) |};
              confirm := fun _ => true |} in
  1 <= page (fst (session [ (KeywordInput "batman", w); (SearchSubmit, w);
                            (PageClick 2, w) ] initial)).
Proof.
  intros w.
  refine (page_stays_positive [ (KeywordInput "batman", w); (SearchSubmit, w);
                                (PageClick 2, w) ] initial eq_refl _).
  cbn. lia.
Defined.

(** *** The error message, outside of searches *)

Lemma error_reviews_loaded (r : fetch_result) (s : state) :
  error (reviews_loaded r s) = error s
  \/ error (reviews_loaded r s) = "Failed to load reviews.".
Proof.
  unfold reviews_loaded. destruct r as [res|m]; [destruct (json_body res)|]; cbn; auto.
Qed.

(** X16. Outside of searches the error message is never taken away: after
    any other action it is the message from before, one of the three fixed
    texts, or the text of a rejected request.  So when rejections carry a
    text, a message that is shown is still shown (possibly replaced)
    after typing, selecting, going back, submitting and deleting. *)
Theorem error_only_cleared_by_search (e : event) (w : world) (s : state) :
  is_search e = false ->
  (error (fst (dispatch e w s)) = error s
   \/ error (fst (dispatch e w s)) = "Failed to load reviews."
   \/ error (fst (dispatch e w s)) = "Submit failed"
   \/ error (fst (dispatch e w s)) = "Delete failed"
   \/ exists r, network w r = Rejected (error (fst (dispatch e w s))))
  /\ ((forall r, network w r <> Rejected "") ->
      error s <> "" -> error (fst (dispatch e w s)) <> "").
Proof.
  intros He.
  assert (H : error (fst (dispatch e w s)) = error s
   \/ error (fst (dispatch e w s)) = "Failed to load reviews."
   \/ error (fst (dispatch e w s)) = "Submit failed"
   \/ error (fst (dispatch e w s)) = "Delete failed"
   \/ exists r, network w r = Rejected (error (fst (dispatch e w s)))).
  { destruct e as [v| |p|title| |v| |id]; try discriminate He.
    - left.
      rewrite (dispatch_no_effect (KeywordInput v) w s (set_keyword v s) (Returned tt) []);
        reflexivity.
    - unfold dispatch. cbn [handler]. unfold selectMovie. cbn.
      destruct (same_selected (selected s) (Some title)); [left; reflexivity|].
      unfold effect. cbn [selected set_reviewText set_selected].
      destruct (JS.truthy_opt (Some title)); [|left; reflexivity].
      rewrite exec_fetchReviews. cbn [fst].
      destruct (error_reviews_loaded (network w (GET (reviews_url (Some title))))
                  (set_reviewText "" (set_selected (Some title) s))) as [H|H];
        rewrite H; auto.
    - left. fold (Back w s). rewrite Back_run. reflexivity.
    - left.
      rewrite (dispatch_no_effect (ReviewInput v) w s (set_reviewText v s) (Returned tt) []);
        reflexivity.
    - fold (SubmitReview w s).
      destruct (String.eqb_spec (JS.trim (reviewText s)) "") as [E|E].
      + left. unfold SubmitReview.
        rewrite (dispatch_no_effect SubmitClick w s s (Returned tt) []); try reflexivity.
        cbn [handler]. unfold submitReview. rewrite (truthy_empty _ E). reflexivity.
      + rewrite (SubmitReview_run w s E).
        destruct (network w (post_request s)) as [res|m] eqn:Hn; [destruct (ok res)|];
          cbn [fst].
        * destruct (error_reviews_loaded (network w (reviews_request s))
                      (set_reviewText "" s)) as [H|H]; rewrite H; auto.
        * auto.
        * do 4 right. exists (post_request s). exact Hn.
    - fold (DeleteReview id w s).
      destruct (confirm w "Delete this review?") eqn:Hc.
      + rewrite (DeleteReview_run id w s Hc).
        destruct (network w (delete_request id)) as [res|m] eqn:Hn;
          [destruct (status res =? 204)|]; cbn [fst].
        * destruct (error_reviews_loaded (network w (reviews_request s)) s) as [H|H];
            rewrite H; auto.
        * auto.
        * do 4 right. exists (delete_request id). exact Hn.
      + left. rewrite (DeleteReview_declined id w s Hc). reflexivity. }
  split; [exact H|].
  intros Hw Hs. destruct H as [H|[H|[H|[H|[r H]]]]].
  - rewrite H. exact Hs.
  - rewrite H. discriminate.
  - rewrite H. discriminate.
  - rewrite H. discriminate.
  - intros E. rewrite E in H. exact (Hw r H).
Qed.

Lemma error_only_cleared_by_search_witness :
  let w := {| network := fun _ =>
                Resolved {| status := 200; json_body := Json (ReviewArray []) |};
              confirm := fun _ => true |} in
  let s := set_error "Search failed" initial in
  error (fst (dispatch (MovieClick "Batman") w s)) <> "".
Proof.
  intros w s.
  refine (proj2 (error_only_cleared_by_search (MovieClick "Batman") w s eq_refl) _ _);
    [intros r; discriminate | discriminate].
Defined.

(** X17. The list on the page changes only by a reload.  After a delete
    that the backend accepted (204), or a submission it accepted (2xx),
    when the reload that follows gets no list (no connection, or a body
    that is not JSON), the review list is the old one -- the deleted
    review still in it, the new one not yet -- and the message is the
    load failure. *)
Theorem stale_list_when_reload_fails (w : world) (s : state) :
  no_list (network w (reviews_request s)) ->
  (forall id res,
     confirm w "Delete this review?" = true ->
     network w (delete_request id) = Resolved res -> status res = 204 ->
     DeleteReview id w s
     = (set_error "Failed to load reviews." s, [delete_request id; reviews_request s])
     /\ reviews (fst (DeleteReview id w s)) = reviews s
     /\ error (fst (DeleteReview id w s)) = "Failed to load reviews.")
  /\ (forall res,
       JS.trim (reviewText s) <> "" ->
       network w (post_request s) = Resolved res -> ok res = true ->
       SubmitReview w s
       = (set_error "Failed to load reviews." (set_reviewText "" s),
          [post_request s; reviews_request s])
       /\ reviews (fst (SubmitReview w s)) = reviews s
       /\ error (fst (SubmitReview w s)) = "Failed to load reviews."
       /\ reviewText (fst (SubmitReview w s)) = "").
Proof.
  intros Hr.
  assert (Hl : forall s0, reviews_loaded (network w (reviews_request s)) s0
                          = set_error "Failed to load reviews." s0).
  { intros s0. unfold reviews_loaded. unfold no_list in Hr.
    destruct (network w (reviews_request s)) as [res|m];
      [destruct (json_body res); [contradiction|]|]; reflexivity. }
  split.
  - intros id res Hc Hn Hs. rewrite (DeleteReview_run id w s Hc), Hn, Hs, Hl.
    repeat split.
  - intros res Ht Hn Hok. rewrite (SubmitReview_run w s Ht), Hn, Hok, Hl.
    repeat split.
Qed.

Lemma stale_list_when_reload_fails_witness :
  let w := {| network := fun r =>
                if String.eqb (method r) "DELETE"
                then Resolved {| status := 204; json_body := NotJson "Unexpected end of JSON input" |}
                else Rejected "Failed to fetch";
              confirm := fun _ => true |} in
  let s := set_reviews (ReviewArray [ {| Review.id := 7; Review.reviewText := "Great film" |} ])
             (set_selected (Some "Batman") initial) in
  reviews (fst (DeleteReview 7 w s))
  = ReviewArray [ {| Review.id := 7; Review.reviewText := "Great film" |} ]
  /\ error (fst (DeleteReview 7 w s)) = "Failed to load reviews.".
Proof.
  intros w s.
  exact (proj2 (proj1 (stale_list_when_reload_fails w s I) 7 _ eq_refl eq_refl eq_refl)).
Defined.

(** *** What a search sends and what it leaves alone *)

(** X18. A search (the form or a page button) never touches the review
    side: the keyword, the review list and the draft are the ones from
    before, whatever the backend answers; the selected title is kept by a
    page click and is kept or reset to null by the form. *)
Theorem search_leaves_reviews (e : event) (w : world) (s : state) :
  is_search e = true ->
  keyword (fst (dispatch e w s)) = keyword s
  /\ reviews (fst (dispatch e w s)) = reviews s
  /\ reviewText (fst (dispatch e w s)) = reviewText s
  /\ (selected (fst (dispatch e w s)) = selected s
      \/ (e = SearchSubmit /\ selected (fst (dispatch e w s)) = None)).
Proof.
  assert (Hf : forall q p s0,
            let s1 := snd (fst (exec (fetchMovies q p) w s0)) in
            keyword s1 = keyword s0 /\ reviews s1 = reviews s0
            /\ reviewText s1 = reviewText s0 /\ selected s1 = selected s0).
  { intros q p s0. rewrite exec_fetchMovies. cbn [fst snd].
    destruct (network w _) as [res|m];
      [destruct (json_body res); [destruct (ok res)|]|]; repeat split. }
  destruct e as [v| |p|title| |v| |id]; try discriminate; intros _.
  - fold (SearchForm w s).
    destruct (String.eqb_spec (JS.trim (keyword s)) "") as [E|E].
    + rewrite SearchForm_blank by (apply truthy_empty, E). cbn [fst].
      repeat split. left. reflexivity.
    + rewrite (SearchForm_run w s E). cbn [fst].
      destruct (Hf (keyword s) 1 (set_selected None (set_error "" s)))
        as (Hk & Hr & Ht & Hs).
      repeat split; try assumption. right. split; [reflexivity | exact Hs].
  - fold (ChangePage p w s). rewrite ChangePage_run. cbn [fst].
    destruct (Hf (keyword s) p s) as (Hk & Hr & Ht & Hs).
    repeat split; try assumption. left. exact Hs.
Qed.

Lemma search_leaves_reviews_witness :
  let w := {| network := fun _ => Rejected "Failed to fetch"; confirm := fun _ => true |} in
  let s := set_reviewText "half a sen" (set_keyword "batman" initial) in
  reviewText (fst (dispatch SearchSubmit w s)) = "half a sen".
Proof.
  intros w s.
  exact (proj1 (proj2 (proj2 (search_leaves_reviews SearchSubmit w s eq_refl)))).
Defined.

(** X19. A page button searches for the text that is in the search box
    at the moment of the click, submitted or not: after typing a
    well-formed [v], the click on page [p] issues the one request for [v]
    on page [p]; the keyword held is [v], and a 2xx answer
    [{ results: rs, totalResults: n }] makes [rs] the items, [n] the total
    and [p] the current page. *)
Theorem page_click_uses_typed_text (v : string) (p : Z) (w0 w : world) (s : state) :
  JS.isWellFormed v = true -> JS.isSafeInteger p = true ->
  let s' := fst (session [ (KeywordInput v, w0); (PageClick p, w) ] s) in
  snd (session [ (KeywordInput v, w0); (PageClick p, w) ] s) = [GET (search_url v p)]
  /\ keyword s' = v
  /\ (forall res rs n,
        network w (GET (search_url v p)) = Resolved res ->
        200 <= status res <= 299 ->
        json_body res = Json (SearchPage rs n) ->
        movies s' = Some rs /\ totalResults s' = Some n /\ page s' = p).
Proof.
  intros _ _ s'. subst s'. cbn [session].
  rewrite (dispatch_no_effect (KeywordInput v) w0 s (set_keyword v s) (Returned tt) [])
    by reflexivity.
  fold (ChangePage p w (set_keyword v s)). rewrite ChangePage_run, exec_fetchMovies.
  cbn [fst snd keyword set_keyword app]. split; [reflexivity|].
  destruct (network w (GET (search_url v p))) as [res|m] eqn:Hn.
  - destruct (json_body res) as [data|m] eqn:Hj; [destruct (ok res) eqn:Hok|].
    + split; [reflexivity|]. intros res0 rs n [= <-] _ Hj0.
      rewrite Hj in Hj0. injection Hj0 as ->. repeat split.
    + split; [reflexivity|]. intros res0 rs n [= <-] Hok0. by_status Hok0. congruence.
    + split; [reflexivity|]. intros res0 rs n [= <-] _ Hj0. congruence.
  - split; [reflexivity|]. intros res rs n Hn0. discriminate Hn0.
Qed.

Lemma page_click_uses_typed_text_witness :
  let w := {| network := fun r =>
                if String.eqb (url r) "/api/search?q=alien&page=2"
                then Resolved {| status := 200;
                                 json_body := Json (SearchPage
                                   [ {| Movie.imdbID := "tt9"; Movie.Title := "Alien";
                                        Movie.Year := "1979"; Movie.Poster := "N/A" |} ] 12) |}
                else Rejected "Failed to fetch";
              confirm := fun _ => true |} in
  let s := set_totalResults (Some 15) (set_keyword "batman" initial) in
  snd (session [ (KeywordInput "alien", w); (PageClick 2, w) ] s)
  = [GET "/api/search?q=alien&page=2"]
  /\ page (fst (session [ (KeywordInput "alien", w); (PageClick 2, w) ] s)) = 2.
Proof.
  intros w s.
  destruct (page_click_uses_typed_text "alien" 2 w w s eq_refl eq_refl) as (Ht & _ & H).
  split; [exact Ht|].
  exact (proj2 (proj2 (H _ _ _ eq_refl ltac:(cbn; lia) eq_refl))).
Defined.

(** X20. The form trims the keyword only to decide whether to search: for
    a well-formed keyword that is non-empty after trim, the request
    carries the keyword as typed, on page 1 whatever the current page.
    When trimming changes the keyword, the URL requested is not the URL
    of the trimmed keyword. *)
Theorem search_sends_keyword_as_typed (w : world) (s : state) :
  JS.trim (keyword s) <> "" ->
  JS.isWellFormed (keyword s) = true ->
  snd (SearchForm w s) = [GET (search_url (keyword s) 1)]
  /\ (JS.trim (keyword s) <> keyword s ->
      snd (SearchForm w s) <> [GET (search_url (JS.trim (keyword s)) 1)]).
Proof.
  intros Hk _. rewrite (SearchForm_run w s Hk). cbn [snd]. split; [reflexivity|].
  intros Hne H.
  apply (f_equal (fun l => match l with r :: _ => url r | [] => "" end)) in H.
  unfold GET in H. cbn [url] in H. apply search_url_cancel in H.
  destruct H as [H _]. symmetry in H. contradiction.
Qed.

Lemma search_sends_keyword_as_typed_witness :
  let w := {| network := fun _ => Rejected "Failed to fetch"; confirm := fun _ => true |} in
  snd (SearchForm w (set_page 3 (set_keyword " batman " initial)))
  = [GET "/api/search?q=%20batman%20&page=1"].
Proof.
  intros w.
  refine (proj1 (search_sends_keyword_as_typed w
                   (set_page 3 (set_keyword " batman " initial)) _ eq_refl)).
  vm_compute. discriminate.
Defined.

(** *** The review section *)

(** X21. The review section shows the state as it is.  When it is
    rendered from a state whose reviews are an array of [{ id, reviewText }],
    the heading names the selected title, the text area holds the draft,
    and the list is the empty-state note for the empty array and
    otherwise one entry per review, in the order received, with the
    review's id as key, its text, a delete button for that id, and for a
    safe-integer id the caption "Review #" and its digits. *)
Theorem review_section_shows (s : state) (v : view) (c : reviews_container)
    (l : list Review.t) :
  render s = inr v -> v_reviews v = Some c ->
  reviews s = ReviewArray l ->
  exists title,
    selected s = Some title /\ title <> ""
    /\ container_heading c = "Reviews for: " ++ title
    /\ textarea_value c = reviewText s
    /\ submit_onClick c = handler SubmitClick s
    /\ back_onClick c = handler BackClick s
    /\ (l = [] -> listing c = NoReviewsYet)
    /\ (l <> [] ->
        exists es, listing c = Entries es
          /\ map entry_key es = map Review.id l
          /\ map entry_text es = map Review.reviewText l
          /\ Forall (fun r => entry_onClick r = handler (DeleteClick (entry_key r)) s) es
          /\ Forall (fun r => JS.isSafeInteger (entry_key r) = true ->
                             entry_caption r = "Review #" ++ JS.toString_num (entry_key r))
                    es).
Proof.
  unfold render. intros Hv Hc Hr. revert Hv Hc.
  destruct (selected s) as [title|] eqn:Hsel; cbn [JS.truthy_opt];
    [destruct (JS.truthy title) eqn:Ht|]; cbn [negb].
  - unfold render_listing. rewrite Hr.
    assert (Hne : title <> "").
    { intros ->. discriminate Ht. }
    destruct (Z.eqb_spec (Z.of_nat (List.length l)) 0) as [Hz|Hz].
    + assert (Hl : l = []) by (destruct l; [reflexivity | cbn [List.length] in Hz; lia]).
      intros [= <-]. cbn [v_reviews]. intros [= <-].
      cbn [container_heading textarea_value submit_onClick back_onClick listing
           JS.toString_opt].
      exists title. repeat split; try reflexivity; try assumption.
      intros H. contradiction.
    + assert (Hl : l <> []) by (intros ->; apply Hz; reflexivity).
      intros [= <-]. cbn [v_reviews]. intros [= <-].
      cbn [container_heading textarea_value submit_onClick back_onClick listing
           JS.toString_opt].
      exists title. repeat split; try reflexivity; try assumption;
        try contradiction.
      intros _. eexists. split; [reflexivity|].
      split; [rewrite map_map; reflexivity|]. split; [rewrite map_map; reflexivity|].
      split; apply Forall_map, Forall_forall; intros x _; [reflexivity|].
      intros _. reflexivity.
  - destruct (render_cards s); [discriminate|]. intros [= <-]. discriminate.
  - destruct (render_cards s); [discriminate|]. intros [= <-]. discriminate.
Qed.

Lemma review_section_shows_witness :
  let s := set_reviews (ReviewArray [ {| Review.id := 7; Review.reviewText := "Great film" |} ])
             (set_selected (Some "Batman") initial) in
  exists v c, render s = inr v /\ v_reviews v = Some c
    /\ container_heading c = "Reviews for: Batman"
    /\ exists es, listing c = Entries es /\ map entry_key es = [7]
                  /\ map entry_text es = ["Great film"].
Proof.
  intros s. eexists. eexists. split; [reflexivity|]. split; [reflexivity|].
  destruct (review_section_shows s _ _ _ eq_refl eq_refl eq_refl)
    as (title & Hsel & _ & Hh & _ & _ & _ & _ & Hl).
  injection Hsel as <-. split; [exact Hh|].
  destruct (Hl ltac:(discriminate)) as (es & He & Hk & Ht & _).
  exists es. split; [exact He|]. split; [exact Hk | exact Ht].
Defined.

(** *** The message of a failed search *)

(** X22. A failed search shows its reason.  For a well-formed keyword:
    when the answer's status is outside 2xx and its body is
    [{ error: e }] with a non-empty [e], the message is [e]; when the body
    is [{ error: "" }], [{}], a page of results or an array of reviews,
    the message is "Search failed"; when
    the body is not JSON or the request is rejected, the message is the
    text of that failure.  The same holds for the submitted form, which
    asks for page 1. *)
Theorem failed_search_message (p : Z) (w : world) (s : state) :
  JS.isWellFormed (keyword s) = true -> JS.isSafeInteger p = true ->
  let s' := fst (ChangePage p w s) in
  (forall res data,
     network w (GET (search_url (keyword s) p)) = Resolved res ->
     (status res < 200 \/ 299 < status res) -> json_body res = Json data ->
     (forall e, data = ErrorObject e -> e <> "" -> error s' = e)
     /\ (data = ErrorObject "" \/ data = EmptyObject
         \/ (exists rs n, data = SearchPage rs n) \/ (exists l, data = ReviewArray l) ->
         error s' = "Search failed"))
  /\ (forall res m,
        network w (GET (search_url (keyword s) p)) = Resolved res ->
        json_body res = NotJson m -> error s' = m)
  /\ (forall m,
        network w (GET (search_url (keyword s) p)) = Rejected m -> error s' = m)
  /\ (p = 1 -> JS.trim (keyword s) <> "" -> error (fst (SearchForm w s)) = error s').
Proof.
  intros _ _ s'. subst s'. rewrite ChangePage_run, exec_fetchMovies. cbn [fst snd].
  split; [|split; [|split]].
  - intros res data -> Hst ->. by_status Hst. rewrite Hst.
    cbn [error set_error]. split.
    + intros e -> He. cbn [data_error JS.or_else]. rewrite (truthy_nonempty e He).
      reflexivity.
    + intros [-> | [-> | [(rs & n & ->) | [l ->]]]]; reflexivity.
  - intros res m -> ->. reflexivity.
  - intros m ->. reflexivity.
  - intros -> Hk. rewrite (SearchForm_as_page_1 w s Hk), ChangePage_run, exec_fetchMovies.
    reflexivity.
Qed.

Lemma failed_search_message_witness :
  let w := {| network := fun _ =>
                Resolved {| status := 404; json_body := Json (ErrorObject "Movie not found!") |};
              confirm := fun _ => true |} in
  let w' := {| network := fun _ =>
                 Resolved {| status := 500; json_body := Json EmptyObject |};
               confirm := fun _ => true |} in
  let s := set_keyword "zzzz" initial in
  error (fst (ChangePage 1 w s)) = "Movie not found!"
  /\ error (fst (ChangePage 1 w' s)) = "Search failed"
  /\ error (fst (SearchForm w s)) = "Movie not found!".
Proof.
  intros w w' s.
  destruct (failed_search_message 1 w s eq_refl eq_refl) as (H & _ & _ & Hf).
  destruct (failed_search_message 1 w' s eq_refl eq_refl) as (H' & _).
  assert (He : error (fst (ChangePage 1 w s)) = "Movie not found!").
  { refine (proj1 (H _ _ eq_refl ltac:(right; cbn; lia) eq_refl) _ eq_refl _).
    discriminate. }
  split; [exact He|]. split.
  - refine (proj2 (H' _ _ eq_refl ltac:(right; cbn; lia) eq_refl) _).
    right. left. reflexivity.
  - rewrite <- He. apply Hf; [reflexivity | vm_compute; discriminate].
Defined.
